(** * Account lifecycle, identity resolution and notification store
    of the crypto-monitor backend

    A shallow embedding of the account and entitlement logic
    ([app/models/user.py], [app/crud/crud_user.py]), of the e-mail
    verification codes ([app/core/email.py]), of the authentication
    endpoints ([app/api/v1/endpoints/auth.py], [oauth.py], [users.py])
    and of the bulk status update of the notification store
    ([app/crud/crud_notification.py]).

    Conventions.
    - A [datetime] is a [Z] counting microseconds (the resolution of
      Python's [datetime]); a [timedelta] is a [Z] of microseconds.
    - A nullable column or an [Optional] value is an [option].
    - A table is the list of its rows in primary-key order;
      [query.first()] is the first row of that list passing the filter.
    - Code that reads the clock, the random generator, Redis or the
      database runs in the monad [M] over the state [World]. *)

From stdpp Require Import base option list strings gmap.
From Stdlib Require Import ZArith Lia Bool.

Local Open Scope string_scope.
Local Open Scope Z_scope.

(** ** Dates and durations *)

Module Dates.

Definition datetime := Z.
Definition timedelta := Z.

Definition microseconds_per_second : Z := 1000000.
Definition microseconds_per_day : Z := 86400 * microseconds_per_second.

(** [timedelta(seconds=n)], [timedelta(minutes=n)], [timedelta(days=n)] *)
Definition seconds (n : Z) : timedelta := n * microseconds_per_second.
Definition minutes (n : Z) : timedelta := n * 60 * microseconds_per_second.
Definition days (n : Z) : timedelta := n * microseconds_per_day.

(** [td.days]: Python normalises a timedelta so that the remainder is
    non-negative, which is floor division. *)
Definition td_days (td : timedelta) : Z := td / microseconds_per_day.

End Dates.
Export Dates.

(** ** app/models/user.py *)

Inductive UserType := TRIAL | MONTHLY | YEARLY | LIFETIME.
Inductive UserStatus := ACTIVE | INACTIVE | SUSPENDED | EXPIRED.

Definition UserType_eqb (a b : UserType) : bool :=
  match a, b with
  | TRIAL, TRIAL | MONTHLY, MONTHLY | YEARLY, YEARLY | LIFETIME, LIFETIME => true
  | _, _ => false
  end.

Record User := mkUser {
  id : Z;
  username : string;
  email : option string;
  hashed_password : option string;
  user_type : UserType;
  status : UserStatus;
  device_id : option string;
  user_agent : option string;
  ip_address : option string;
  oauth_provider : option string;
  oauth_provider_id : option string;
  oauth_email_verified : bool;
  trial_start_date : option datetime;
  trial_end_date : option datetime;
  subscription_start_date : option datetime;
  subscription_end_date : option datetime;
  max_follows : Z;
  current_follows : Z;
  email_notifications : bool;
  sms_notifications : bool;
  push_notifications : bool;
  created_at : option datetime;
  updated_at : option datetime;
  last_login_at : option datetime
}.

(** The three properties read [datetime.utcnow()] once on the path that
    needs it; [now] is that reading.  A [datetime] is always truthy, so
    [not self.trial_end_date] tests for [None]. *)

Definition is_trial_expired (self : User) (now : datetime) : bool :=
  if negb (UserType_eqb (user_type self) TRIAL) then false
  else match trial_end_date self with
       | None => false
       | Some trial_end => now >? trial_end
       end.

Definition is_subscription_active (self : User) (now : datetime) : bool :=
  if UserType_eqb (user_type self) TRIAL then negb (is_trial_expired self now)
  else if UserType_eqb (user_type self) LIFETIME then true
  else match subscription_end_date self with
       | None => false
       | Some subscription_end => now <=? subscription_end
       end.

Definition can_add_follows (self : User) : bool :=
  current_follows self <? max_follows self.


(** ** Python outcomes *)

(** The exceptions the modelled code can raise.  [HTTPException] carries
    the status code. *)
Inductive exn :=
  | AttributeError
  | IntegrityError
  | TypeError
  | UnboundLocalError
  | ConnectionError
  | ResponseError
  | OverflowError
  | OperationalError
  | ValidationError
  | HTTPException (status_code : Z).

(** What a call does: it returns, it raises, or ([Exhausted]) the
    recorded random draws ran out while a [while True] loop was still
    asking for more, so that the run could not be followed further. *)
Inductive outcome (A : Type) :=
  | Returned (a : A)
  | Raised (e : exn)
  | Exhausted.
Arguments Returned {A} a.
Arguments Raised {A} e.
Arguments Exhausted {A}.

(** ** app/core/config.py *)

Record Settings := mkSettings {
  SECRET_KEY : string;
  ALGORITHM : string;
  ACCESS_TOKEN_EXPIRE_MINUTES : Z;
  REFRESH_TOKEN_EXPIRE_DAYS : Z;
  TRIAL_PERIOD_DAYS : Z;
  TRIAL_MAX_FOLLOWS : Z
}.

(** The values [Settings] declares; the environment may override them. *)
Definition default_settings : Settings :=
  {| SECRET_KEY := "your-secret-key-here-change-in-production";
     ALGORITHM := "HS256";
     ACCESS_TOKEN_EXPIRE_MINUTES := 30;
     REFRESH_TOKEN_EXPIRE_DAYS := 7;
     TRIAL_PERIOD_DAYS := 3;
     TRIAL_MAX_FOLLOWS := 5 |}.

(** [settings.<name>] for the integer fields.  The class declares
    [REFRESH_TOKEN_EXPIRE_DAYS] and no [REFRESH_TOKEN_EXPIRE_MINUTES]:
    reading an undeclared attribute of a settings object raises
    [AttributeError]. *)
Definition settings_int (settings : Settings) (name : string) : outcome Z :=
  if String.eqb name "ACCESS_TOKEN_EXPIRE_MINUTES"
  then Returned (ACCESS_TOKEN_EXPIRE_MINUTES settings)
  else if String.eqb name "REFRESH_TOKEN_EXPIRE_DAYS"
  then Returned (REFRESH_TOKEN_EXPIRE_DAYS settings)
  else if String.eqb name "TRIAL_PERIOD_DAYS"
  then Returned (TRIAL_PERIOD_DAYS settings)
  else if String.eqb name "TRIAL_MAX_FOLLOWS"
  then Returned (TRIAL_MAX_FOLLOWS settings)
  else Raised AttributeError.

(** ** app/core/security.py

    The module is imported by the sources but is not among them.  Its
    functions are the fields of [Security]; the code below is stated for
    every implementation of them. *)

Class Security := {
  (** [get_password_hash(password)] *)
  get_password_hash : string -> string;
  (** the hash scheme's check of a password against a stored hash *)
  verify_hash : string -> string -> bool;
  (** [create_access_token(subject, expires_delta)] *)
  create_access_token : Z -> timedelta -> string;
  (** [create_refresh_token(subject, expires_delta)] *)
  create_refresh_token : Z -> timedelta -> string
}.

(** Modelled from the spec: [verify_password] of the absent
    [app/core/security.py].  The spec gives [verify(password, hash) ->
    bool] over an optional password hash that "must fail closed": a
    boolean for every input, false when there is no hash to compare
    with. *)
Definition verify_password `{Security} (plain_password : string)
    (hashed_password : option string) : bool :=
  match hashed_password with
  | None => false
  | Some h => verify_hash plain_password h
  end.

(** ** State *)

(** A value stored in Redis under [verification_code:<email>]: the JSON
    object written by [store_verification_code] (with [json.loads]
    after [json.dumps], and [fromisoformat] after [isoformat], giving
    back what was written) and the instant at which the [setex]
    time-to-live removes the key. *)
Record VerificationEntry := mkEntry {
  entry_code : string;
  entry_created_at : datetime;
  entry_expires_at : datetime;
  entry_ttl_deadline : datetime
}.

Record World := mkWorld {
  (** table [users] *)
  users : list User;
  (** the Redis database, and whether the server answers *)
  redis : gmap string VerificationEntry;
  redis_up : bool;
  (** [clock k] is the [k]-th reading of the clock, [ticks] the number
      of readings made so far *)
  clock : nat -> datetime;
  ticks : nat;
  (** the strings [random.choices] will produce, in order, joined *)
  rng : list string
}.

Definition set_users (us : list User) (w : World) : World :=
  mkWorld us (redis w) (redis_up w) (clock w) (ticks w) (rng w).
Definition set_redis (r : gmap string VerificationEntry) (w : World) : World :=
  mkWorld (users w) r (redis_up w) (clock w) (ticks w) (rng w).
Definition set_ticks (n : nat) (w : World) : World :=
  mkWorld (users w) (redis w) (redis_up w) (clock w) n (rng w).
Definition set_rng (l : list string) (w : World) : World :=
  mkWorld (users w) (redis w) (redis_up w) (clock w) (ticks w) l.

(** The clock never runs backwards. *)
Definition monotone_clock (w : World) : Prop :=
  forall i j : nat, (i <= j)%nat -> clock w i <= clock w j.

(** ** The monad of the modelled code: state and exceptions *)

Definition M (A : Type) : Type := World -> outcome A * World.

Definition ret {A} (a : A) : M A := fun w => (Returned a, w).
Definition raise {A} (e : exn) : M A := fun w => (Raised e, w).
Definition bind {A B} (c : M A) (k : A -> M B) : M B :=
  fun w =>
    match c w with
    | (Returned a, w') => k a w'
    | (Raised e, w') => (Raised e, w')
    | (Exhausted, w') => (Exhausted, w')
    end.
Definition lift {A} (o : outcome A) : M A := fun w => (o, w).

(** [try: c  except Exception: handler] *)
Definition try_except {A} (c : M A) (handler : exn -> M A) : M A :=
  fun w =>
    match c w with
    | (Raised e, w') => handler e w'
    | r => r
    end.

Declare Scope py_scope.
Delimit Scope py_scope with py.
Notation "'let*' x ':=' c 'in' k" := (bind c (fun x => k))
  (at level 10, x pattern, c at level 100, k at level 200) : py_scope.
Notation "c ';;;' k" := (bind c (fun _ => k))
  (at level 100, k at level 200, right associativity) : py_scope.
Local Open Scope py_scope.

(** The run [r] ended with a [return]. *)
Definition returns {A} (r : outcome A * World) : Prop :=
  exists a, fst r = Returned a.

(** [datetime.utcnow()], and the server-side [now()] of the database
    and of Redis: the next reading of the clock. *)
Definition utcnow : M datetime :=
  fun w => (Returned (clock w (ticks w)), set_ticks (S (ticks w)) w).

(** ["".join(random.choices(population, k=n))]: the next recorded draw. *)
Definition random_choices : M string :=
  fun w =>
    match rng w with
    | [] => (Exhausted, w)
    | s :: rest => (Returned s, set_rng rest w)
    end.

(** ** app/schemas: request bodies *)

Module UserRegister.
Record t := mk {
  username : string;
  email : string;
  password : string;
  verification_code : string
}.
End UserRegister.

Module AutoRegister.
Record t := mk {
  device_id : option string;
  user_agent : option string
}.
End AutoRegister.

(** The dictionary built by [OAuthService.get_google_user_info] and
    [get_apple_user_info] from a verified ID token, with the value types
    of [OAuthUserInfo]. *)
Module OAuthInfo.
Record t := mk {
  provider : string;
  provider_id : string;
  email : string;
  email_verified : bool
}.
End OAuthInfo.

(** What [CRUDUser.create_user] is handed as [obj_in]: the validated
    request body, or (from [auto_register_user]) a plain dictionary. *)
Inductive create_user_arg :=
  | BodyUserRegister (body : UserRegister.t)
  | PlainDict (items : list (string * option string)).

(** [obj_in.<name>].  A [UserRegister] has its four fields; a [dict] has
    no attribute named [username], [email] or [password] (its entries
    are reached by subscript), so the lookup raises. *)
Definition getattr (obj_in : create_user_arg) (name : string) : outcome string :=
  match obj_in with
  | BodyUserRegister body =>
      if String.eqb name "username" then Returned (UserRegister.username body)
      else if String.eqb name "email" then Returned (UserRegister.email body)
      else if String.eqb name "password" then Returned (UserRegister.password body)
      else if String.eqb name "verification_code"
      then Returned (UserRegister.verification_code body)
      else Raised AttributeError
  | PlainDict _ => Raised AttributeError
  end.

(** ** The database session *)

(** [Column == value] inside a filter, for a nullable string column and
    a string value: a [NULL] column is equal to nothing. *)
Definition col_eqb (column : option string) (value : string) : bool :=
  match column with
  | Some c => String.eqb c value
  | None => false
  end.

(** Two nullable values that are both present and equal: what a
    [unique] index forbids. *)
Definition same_present (a b : option string) : bool :=
  match a, b with
  | Some x, Some y => String.eqb x y
  | _, _ => false
  end.

Definition is_Some_b {A} (a : option A) : bool :=
  match a with Some _ => true | None => false end.

Definition is_present (a : option string) : bool :=
  match a with Some _ => true | None => false end.

(** Primary keys are pairwise different. *)
Definition distinct_ids (us : list User) : Prop := NoDup (map id us).

(** The primary key given to a new row: one more than the largest. *)
Definition next_id (us : list User) : Z :=
  1 + fold_right Z.max 0 (map id us).

(** The constraints of table [users] checked when a row is inserted:
    [email] is [nullable=False]; [username], [email] and [device_id]
    are [unique]. *)
Definition integrity_ok (us : list User) (row : User) : bool :=
  is_present (email row) &&
  forallb (fun v =>
             negb (String.eqb (username v) (username row)) &&
             negb (same_present (email v) (email row)) &&
             negb (same_present (device_id v) (device_id row))) us.

Definition with_id (i : Z) (u : User) : User :=
  mkUser i (username u) (email u) (hashed_password u) (user_type u) (status u)
    (device_id u) (user_agent u) (ip_address u)
    (oauth_provider u) (oauth_provider_id u) (oauth_email_verified u)
    (trial_start_date u) (trial_end_date u)
    (subscription_start_date u) (subscription_end_date u)
    (max_follows u) (current_follows u)
    (email_notifications u) (sms_notifications u) (push_notifications u)
    (created_at u) (updated_at u) (last_login_at u).

Definition with_updated_at (t : option datetime) (u : User) : User :=
  mkUser (id u) (username u) (email u) (hashed_password u) (user_type u) (status u)
    (device_id u) (user_agent u) (ip_address u)
    (oauth_provider u) (oauth_provider_id u) (oauth_email_verified u)
    (trial_start_date u) (trial_end_date u)
    (subscription_start_date u) (subscription_end_date u)
    (max_follows u) (current_follows u)
    (email_notifications u) (sms_notifications u) (push_notifications u)
    (created_at u) t (last_login_at u).

Definition with_last_login_at (t : option datetime) (u : User) : User :=
  mkUser (id u) (username u) (email u) (hashed_password u) (user_type u) (status u)
    (device_id u) (user_agent u) (ip_address u)
    (oauth_provider u) (oauth_provider_id u) (oauth_email_verified u)
    (trial_start_date u) (trial_end_date u)
    (subscription_start_date u) (subscription_end_date u)
    (max_follows u) (current_follows u)
    (email_notifications u) (sms_notifications u) (push_notifications u)
    (created_at u) (updated_at u) t.

(** The four assignments of [set_trial_period]. *)
Definition with_trial (start finish : option datetime) (ty : UserType)
    (follows : Z) (u : User) : User :=
  mkUser (id u) (username u) (email u) (hashed_password u) ty (status u)
    (device_id u) (user_agent u) (ip_address u)
    (oauth_provider u) (oauth_provider_id u) (oauth_email_verified u)
    start finish
    (subscription_start_date u) (subscription_end_date u)
    follows (current_follows u)
    (email_notifications u) (sms_notifications u) (push_notifications u)
    (created_at u) (updated_at u) (last_login_at u).

(** The three OAuth assignments of [link_oauth_account]. *)
Definition with_oauth (prov pid : option string) (verified : bool) (u : User) : User :=
  mkUser (id u) (username u) (email u) (hashed_password u) (user_type u) (status u)
    (device_id u) (user_agent u) (ip_address u)
    prov pid verified
    (trial_start_date u) (trial_end_date u)
    (subscription_start_date u) (subscription_end_date u)
    (max_follows u) (current_follows u)
    (email_notifications u) (sms_notifications u) (push_notifications u)
    (created_at u) (updated_at u) (last_login_at u).

(** A query run on the session: [q] reads table [users]. *)
Definition db_query {A} (q : list User -> A) : M A :=
  fun w => (Returned (q (users w)), w).

(** [db.add(obj); db.commit(); db.refresh(obj)] for a new object: the
    row gets its primary key and, where the column was left unset, the
    server default [now()] of [updated_at]; a violated constraint
    raises and nothing is stored. *)
Definition db_insert (obj : User) : M User :=
  let* server_now := utcnow in
  fun w =>
    let row := with_id (next_id (users w))
                 (match updated_at obj with
                  | None => with_updated_at (Some server_now) obj
                  | Some _ => obj
                  end) in
    if integrity_ok (users w) row
    then (Returned row, set_users (users w ++ [row]) w)
    else (Raised IntegrityError, w).

(** The row of [obj] replaced by [obj]. *)
Definition update_row (obj : User) (us : list User) : list User :=
  map (fun row => if id row =? id obj then obj else row) us.

(** [db.add(obj); db.commit(); db.refresh(obj)] for an object loaded
    from the session: an UPDATE of its row. *)
Definition db_update (obj : User) : M User :=
  fun w => (Returned obj, set_users (update_row obj (users w)) w).

(** [onupdate=func.now()] of [updated_at]: an UPDATE that does not
    assign the column stamps it with the server's [now()]. *)
Definition db_update_stamped (obj : User) : M User :=
  let* server_now := utcnow in
  db_update (with_updated_at (Some server_now) obj).

(** ** app/crud/crud_user.py *)

Section CRUDUser.

Context `{Security} (settings : Settings).

Definition get (us : list User) (id' : Z) : option User :=
  find (fun u => id u =? id') us.

Definition get_by_email (us : list User) (email' : string) : option User :=
  find (fun u => col_eqb (email u) email') us.

Definition get_by_username (us : list User) (username' : string) : option User :=
  find (fun u => String.eqb (username u) username') us.

Definition get_by_device_id (us : list User) (device_id' : string) : option User :=
  find (fun u => col_eqb (device_id u) device_id') us.

Definition create_user (obj_in : create_user_arg) : M User :=
  let* password := lift (getattr obj_in "password") in
  let hashed_password := get_password_hash password in
  let* username := lift (getattr obj_in "username") in
  let* email := lift (getattr obj_in "email") in
  let* max_follows := lift (settings_int settings "TRIAL_MAX_FOLLOWS") in
  let* trial_start := utcnow in
  let* trial_end_base := utcnow in
  let* trial_days := lift (settings_int settings "TRIAL_PERIOD_DAYS") in
  let* created := utcnow in
  let* last_login := utcnow in
  db_insert
    {| id := 0;
       username := username;
       email := Some email;
       hashed_password := Some hashed_password;
       user_type := TRIAL;
       status := ACTIVE;
       device_id := None;
       user_agent := None;
       ip_address := None;
       oauth_provider := None;
       oauth_provider_id := None;
       oauth_email_verified := false;
       trial_start_date := Some trial_start;
       trial_end_date := Some (trial_end_base + days trial_days);
       subscription_start_date := None;
       subscription_end_date := None;
       max_follows := max_follows;
       current_follows := 0;
       email_notifications := true;
       sms_notifications := false;
       push_notifications := true;
       created_at := Some created;
       updated_at := None;
       last_login_at := Some last_login |}.

(** The filter [(User.username == username) | (User.email == username)]. *)
Definition matches_identifier (identifier : string) (u : User) : bool :=
  String.eqb (username u) identifier || col_eqb (email u) identifier.

(** [.filter(...).first()] with that filter.  The query has no
    [ORDER BY]: the row it yields is the one the engine reaches first.
    Both columns are indexed ([index=True]), and SQLite answers the
    [OR] through the two indexes in the order of the filter, the index
    of [username] before the index of [email]: the row with this
    username comes first, and the row with this e-mail address only
    when no row has the username. *)
Definition first_by_username_or_email (us : list User) (identifier : string)
    : option User :=
  match get_by_username us identifier with
  | Some user => Some user
  | None => get_by_email us identifier
  end.

Definition authenticate (us : list User) (username' password : string) : option User :=
  match first_by_username_or_email us username' with
  | None => None
  | Some user =>
      if negb (verify_password password (hashed_password user)) then None
      else Some user
  end.

Definition update_last_login (user_id : Z) : M (option User) :=
  let* user := db_query (fun us => get us user_id) in
  match user with
  | Some user =>
      let* now := utcnow in
      let* user := db_update_stamped (with_last_login_at (Some now) user) in
      ret (Some user)
  | None => ret None
  end.

Definition set_trial_period (user_id : Z) (days' : Z) : M (option User) :=
  let* user := db_query (fun us => get us user_id) in
  match user with
  | Some user =>
      let* trial_start := utcnow in
      let* trial_end_base := utcnow in
      let* max_follows := lift (settings_int settings "TRIAL_MAX_FOLLOWS") in
      let* user :=
        db_update_stamped
          (with_trial (Some trial_start) (Some (trial_end_base + days days'))
             TRIAL max_follows user) in
      ret (Some user)
  | None => ret None
  end.

(** The [while True] loop of [generate_unique_username] over the
    recorded draws: the first candidate that no row carries, and the
    draws left; [None] when the draws run out first. *)
Fixpoint first_free_username (us : list User) (draws : list string)
    : option (string * list string) :=
  match draws with
  | [] => None
  | draw :: rest =>
      let username := "user_" ++ draw in
      match get_by_username us username with
      | None => Some (username, rest)
      | Some _ => first_free_username us rest
      end
  end.

Definition generate_unique_username : M string :=
  fun w =>
    match first_free_username (users w) (rng w) with
    | Some (username, rest) => (Returned username, set_rng rest w)
    | None => (Exhausted, set_rng [] w)
    end.

Definition generate_random_password : M string := random_choices.

(** The rows with [oauth_provider == provider] and
    [oauth_provider_id == provider_id]. *)
Definition has_identity (provider provider_id : string) (u : User) : bool :=
  col_eqb (oauth_provider u) provider && col_eqb (oauth_provider_id u) provider_id.

Definition get_by_oauth_provider (us : list User) (provider provider_id : string)
    : option User :=
  find (has_identity provider provider_id) us.

Definition create_oauth_user (oauth_info : OAuthInfo.t) : M User :=
  let* username := generate_unique_username in
  let* max_follows := lift (settings_int settings "TRIAL_MAX_FOLLOWS") in
  let* trial_start := utcnow in
  let* trial_end_base := utcnow in
  let* trial_days := lift (settings_int settings "TRIAL_PERIOD_DAYS") in
  let* created := utcnow in
  let* last_login := utcnow in
  db_insert
    {| id := 0;
       username := username;
       email := Some (OAuthInfo.email oauth_info);
       hashed_password := None;
       user_type := TRIAL;
       status := ACTIVE;
       device_id := None;
       user_agent := None;
       ip_address := None;
       oauth_provider := Some (OAuthInfo.provider oauth_info);
       oauth_provider_id := Some (OAuthInfo.provider_id oauth_info);
       oauth_email_verified := OAuthInfo.email_verified oauth_info;
       trial_start_date := Some trial_start;
       trial_end_date := Some (trial_end_base + days trial_days);
       subscription_start_date := None;
       subscription_end_date := None;
       max_follows := max_follows;
       current_follows := 0;
       email_notifications := true;
       sms_notifications := false;
       push_notifications := true;
       created_at := Some created;
       updated_at := None;
       last_login_at := Some last_login |}.

Definition link_oauth_account (user : User) (oauth_info : OAuthInfo.t) : M User :=
  let user := with_oauth (Some (OAuthInfo.provider oauth_info))
                (Some (OAuthInfo.provider_id oauth_info))
                (OAuthInfo.email_verified oauth_info) user in
  let* now := utcnow in
  db_update (with_updated_at (Some now) user).

(** Python values that can stand where [verify_refresh_token] expects a
    decoded token payload. *)
#[warnings="-register-all"]
Inductive PyVal :=
  | PyNone
  | PyBool (b : bool)
  | PyInt (n : Z)
  | PyDict (items : list (string * PyVal)).

(** [value.get(key)]: only a [dict] has the method. *)
Definition py_get (value : PyVal) (key : string) : outcome PyVal :=
  match value with
  | PyDict items =>
      Returned (match find (fun kv => String.eqb (fst kv) key) items with
                | Some (_, v) => v
                | None => PyNone
                end)
  | _ => Raised AttributeError
  end.

(** Truth value of [value] in [if value:]. *)
Definition truthy (value : PyVal) : bool :=
  match value with
  | PyNone => false
  | PyBool b => b
  | PyInt n => negb (n =? 0)
  | PyDict items => match items with [] => false | _ => true end
  end.

(** [int(value)] *)
Definition py_int (value : PyVal) : outcome Z :=
  match value with
  | PyInt n => Returned n
  | PyBool b => Returned (if b then 1 else 0)
  | _ => Raised TypeError
  end.

(** The body of the [try] block of [verify_refresh_token]: [payload] is
    what [verify_password] returns, a boolean. *)
Definition verify_refresh_token_try (refresh_token : string) : outcome (option Z) :=
  let payload := PyBool (verify_password refresh_token (Some (SECRET_KEY settings))) in
  match py_get payload "sub" with
  | Returned user_id =>
      if truthy user_id
      then match py_int user_id with
           | Returned n => Returned (Some n)
           | Raised e => Raised e
           | Exhausted => Exhausted
           end
      else Returned None
  | Raised e => Raised e
  | Exhausted => Exhausted
  end.

Definition verify_refresh_token (refresh_token : string) : option Z :=
  match verify_refresh_token_try refresh_token with
  | Returned r => r
  | Raised _ => None
  | Exhausted => None
  end.

End CRUDUser.

(** ** app/core/email.py *)

(** [redis_client.setex(key, seconds, value)]: the key is written with
    a time-to-live; Redis refuses a time-to-live that is not positive. *)
Definition redis_setex (key : string) (ttl_seconds : Z)
    (code : string) (created_at expires_at : datetime) : M unit :=
  fun w =>
    if negb (redis_up w) then (Raised ConnectionError, w)
    else if ttl_seconds <=? 0 then (Raised ResponseError, w)
    else
      let server_now := clock w (ticks w) in
      let entry := mkEntry code created_at expires_at
                     (server_now + seconds ttl_seconds) in
      (Returned tt, set_redis (<[key := entry]> (redis w)) (set_ticks (S (ticks w)) w)).

(** [redis_client.get(key)]: a key whose time-to-live has run out is
    gone. *)
Definition redis_get (key : string) : M (option VerificationEntry) :=
  fun w =>
    if negb (redis_up w) then (Raised ConnectionError, w)
    else
      let server_now := clock w (ticks w) in
      let w' := set_ticks (S (ticks w)) w in
      match redis w !! key with
      | Some entry =>
          if server_now <? entry_ttl_deadline entry
          then (Returned (Some entry), w')
          else (Returned None, set_redis (delete key (redis w)) w')
      | None => (Returned None, w')
      end.

(** [redis_client.delete(key)] *)
Definition redis_delete (key : string) : M unit :=
  fun w =>
    if negb (redis_up w) then (Raised ConnectionError, w)
    else (Returned tt, set_redis (delete key (redis w)) w).

Module EmailService.

Definition key_of (email : string) : string := "verification_code:" ++ email.

Definition generate_verification_code : M string := random_choices.

Definition store_verification_code (email code : string) (expires_in : Z) : M bool :=
  try_except
    (let key := key_of email in
     let* created_at := utcnow in
     let* expires_base := utcnow in
     redis_setex key expires_in code created_at (expires_base + seconds expires_in) ;;;
     ret true)
    (fun _ => ret false).

Definition verify_code (email code : string) : M bool :=
  try_except
    (let key := key_of email in
     let* stored_data := redis_get key in
     match stored_data with
     | None => ret false
     | Some data =>
         let stored_code := entry_code data in
         let expires_at := entry_expires_at data in
         if String.eqb stored_code code
         then
           let* now := utcnow in
           if now <=? expires_at
           then redis_delete key ;;; ret true
           else ret false
         else ret false
     end)
    (fun _ => ret false).

(** In the test configuration the mail is printed, not sent. *)
Definition send_verification_email (email code : string) : M bool := ret true.

Definition default_expires_in : Z := 300.

Definition send_verification_code (email : string) : M bool :=
  let* code := generate_verification_code in
  let* stored := store_verification_code email code default_expires_in in
  if negb stored then ret false
  else send_verification_email email code.

End EmailService.

(** ** app/api/v1/endpoints: responses *)

Module TokenResponse.
Record t := mk {
  access_token : string;
  refresh_token : string;
  token_type : string;
  expires_in : Z;
  user : User
}.
End TokenResponse.

Module OAuthLoginResponse.
Record t := mk {
  access_token : string;
  refresh_token : string;
  expires_in : Z;
  user : User;
  is_new_user : bool
}.
End OAuthLoginResponse.

(** [td.seconds]: the seconds left over after the whole days. *)
Definition td_seconds (td : timedelta) : Z :=
  (td mod microseconds_per_day) / microseconds_per_second.

(** ** app/api/v1/endpoints/auth.py and oauth.py *)

Section Endpoints.

Context `{Security} (settings : Settings).

(** The session hands out one object per row: a [user] variable bound
    before [set_trial_period] or [update_last_login] ran on its id shows
    the row as those calls left it.  [after_call user r] is that
    object, [r] being what the call returned. *)
Definition after_call (user : User) (r : option User) : User :=
  match r with Some updated => updated | None => user end.

Definition register_user (user_in : UserRegister.t) : M TokenResponse.t :=
  let* verified := EmailService.verify_code (UserRegister.email user_in)
                     (UserRegister.verification_code user_in) in
  if negb verified then raise (HTTPException 400) else
  let* user := db_query (fun us => get_by_email us (UserRegister.email user_in)) in
  if is_Some_b user then raise (HTTPException 400) else
  let* user := db_query (fun us => get_by_username us (UserRegister.username user_in)) in
  if is_Some_b user then raise (HTTPException 400) else
  let* user := create_user settings (BodyUserRegister user_in) in
  let* trial_days := lift (settings_int settings "TRIAL_PERIOD_DAYS") in
  let* granted := set_trial_period settings (id user) trial_days in
  let user := after_call user granted in
  let* access_minutes := lift (settings_int settings "ACCESS_TOKEN_EXPIRE_MINUTES") in
  let access_token_expires := minutes access_minutes in
  let* refresh_minutes := lift (settings_int settings "REFRESH_TOKEN_EXPIRE_MINUTES") in
  let refresh_token_expires := minutes refresh_minutes in
  ret (TokenResponse.mk
         (create_access_token (id user) access_token_expires)
         (create_refresh_token (id user) refresh_token_expires)
         "bearer"
         (td_seconds access_token_expires)
         user).

Definition refresh_access_token (refresh_token : string) : M TokenResponse.t :=
  match verify_refresh_token settings refresh_token with
  | None => raise (HTTPException 401)
  | Some user_id =>
      if user_id =? 0 then raise (HTTPException 401) else
      let* user := db_query (fun us => get us user_id) in
      match user with
      | None => raise (HTTPException 404)
      | Some user =>
          let* access_minutes :=
            lift (settings_int settings "ACCESS_TOKEN_EXPIRE_MINUTES") in
          let access_token_expires := minutes access_minutes in
          let* refresh_minutes :=
            lift (settings_int settings "REFRESH_TOKEN_EXPIRE_MINUTES") in
          let refresh_token_expires := minutes refresh_minutes in
          ret (TokenResponse.mk
                 (create_access_token (id user) access_token_expires)
                 (create_refresh_token (id user) refresh_token_expires)
                 "bearer"
                 (td_seconds access_token_expires)
                 user)
      end
  end.

(** [client_host] is [request.client.host if request.client else None]. *)
Definition auto_register_user (auto_register_in : AutoRegister.t)
    (client_host : option string) : M TokenResponse.t :=
  match AutoRegister.device_id auto_register_in with
  | None => raise (HTTPException 400)
  | Some device_id =>
      if String.eqb device_id "" then raise (HTTPException 400) else
      let* user := db_query (fun us => get_by_device_id us device_id) in
      match user with
      | Some user =>
          let* access_minutes :=
            lift (settings_int settings "ACCESS_TOKEN_EXPIRE_MINUTES") in
          let access_token_expires := minutes access_minutes in
          let* refresh_minutes :=
            lift (settings_int settings "REFRESH_TOKEN_EXPIRE_MINUTES") in
          let refresh_token_expires := minutes refresh_minutes in
          let* logged := update_last_login (id user) in
          let user := after_call user logged in
          ret (TokenResponse.mk
                 (create_access_token (id user) access_token_expires)
                 (create_refresh_token (id user) refresh_token_expires)
                 "bearer"
                 (td_seconds access_token_expires)
                 user)
      | None =>
          let* username := generate_unique_username in
          let* password := generate_random_password in
          let user_create_data :=
            PlainDict [("username", Some username);
                       ("email", None);
                       ("password", Some password);
                       ("device_id", Some device_id);
                       ("user_agent", AutoRegister.user_agent auto_register_in);
                       ("ip_address", client_host)] in
          let* user := create_user settings user_create_data in
          let* trial_days := lift (settings_int settings "TRIAL_PERIOD_DAYS") in
          set_trial_period settings (id user) trial_days ;;;
          (* [access_token_expires] was assigned in the other branch only *)
          raise UnboundLocalError
      end
  end.

(** Lines 36-59 of [google_oauth_login], repeated word for word in
    [apple_oauth_login]: the account of an OAuth identity and whether
    it was created now. *)
Definition oauth_resolve_user (user_info : OAuthInfo.t) : M (User * bool) :=
  let* existing_user :=
    db_query (fun us => get_by_oauth_provider us (OAuthInfo.provider user_info)
                          (OAuthInfo.provider_id user_info)) in
  match existing_user with
  | Some existing_user =>
      let user := existing_user in
      let* logged := update_last_login (id user) in
      ret (after_call user logged, false)
  | None =>
      let* email_user :=
        db_query (fun us => get_by_email us (OAuthInfo.email user_info)) in
      match email_user with
      | Some email_user =>
          let* user := link_oauth_account email_user user_info in
          ret (user, false)
      | None =>
          let* user := create_oauth_user settings user_info in
          ret (user, true)
      end
  end.

(** [user_info] is what [oauth_service.get_google_user_info(id_token)]
    returned: [None] for a token the provider's client rejects. *)
Definition google_oauth_login (user_info : option OAuthInfo.t)
    : M OAuthLoginResponse.t :=
  try_except
    (match user_info with
     | None => raise (HTTPException 400)
     | Some user_info =>
         let* resolved := oauth_resolve_user user_info in
         let user := fst resolved in
         let is_new_user := snd resolved in
         let* access_minutes :=
           lift (settings_int settings "ACCESS_TOKEN_EXPIRE_MINUTES") in
         let access_token_expires := minutes access_minutes in
         let* refresh_minutes :=
           lift (settings_int settings "REFRESH_TOKEN_EXPIRE_MINUTES") in
         let refresh_token_expires := minutes refresh_minutes in
         ret (OAuthLoginResponse.mk
                (create_access_token (id user) access_token_expires)
                (create_refresh_token (id user) refresh_token_expires)
                (td_seconds access_token_expires)
                user
                is_new_user)
     end)
    (fun _ => raise (HTTPException 500)).

End Endpoints.

(** ** app/api/v1/endpoints/users.py *)

Module UsageStats.
Record t := mk {
  follows_count : Z;
  max_follows : Z;
  notifications_today : Z;
  last_login : option datetime;
  account_age_days : Z
}.
End UsageStats.

Definition get_usage_stats (current_user : User) : UsageStats.t :=
  UsageStats.mk
    (current_follows current_user)
    (max_follows current_user)
    0
    (last_login_at current_user)
    (match created_at current_user with
     | Some created => td_days (created - created)
     | None => 0
     end).

(** ** app/models/notification.py and app/crud/crud_notification.py *)

Inductive NotificationType := TWITTER | WALLET | BLACKROCK | SYSTEM.
Inductive NotificationStatus := UNREAD | READ | ARCHIVED.
Inductive NotificationPriority := LOW | MEDIUM | HIGH | URGENT.

Module Notification.
Record t := mk {
  id : Z;
  user_id : Z;
  title : string;
  content : string;
  type : NotificationType;
  priority : NotificationPriority;
  status : NotificationStatus;
  related_id : option string;
  related_data : option string;
  created_at : option datetime;
  read_at : option datetime
}.

Definition with_status (s : NotificationStatus) (n : t) : t :=
  mk (id n) (user_id n) (title n) (content n) (type n) (priority n) s
     (related_id n) (related_data n) (created_at n) (read_at n).
End Notification.

(** The enum of the same name in [app/schemas/notification.py], a
    [str] subclass: a member is the string that is its value. *)
Module Schemas.
Inductive NotificationStatus := UNREAD | READ | ARCHIVED.

Definition value (s : NotificationStatus) : string :=
  match s with
  | UNREAD => "unread"
  | READ => "read"
  | ARCHIVED => "archived"
  end.
End Schemas.

(** A row of table [notifications] as the database holds it.  Column
    [status] is text: for a column of type [Enum(NotificationStatus)]
    the member's name is what is written, and a row is loaded by
    looking its text up among the names.  The other columns are shown
    as a loaded object has them. *)
Module NotificationRow.
Record t := mk {
  id : Z;
  user_id : Z;
  title : string;
  content : string;
  type : NotificationType;
  priority : NotificationPriority;
  status : string;
  related_id : option string;
  related_data : option string;
  created_at : option datetime;
  read_at : option datetime
}.

Definition with_status (s : string) (n : t) : t :=
  mk (id n) (user_id n) (title n) (content n) (type n) (priority n) s
     (related_id n) (related_data n) (created_at n) (read_at n).

Definition name_of (s : NotificationStatus) : string :=
  match s with
  | UNREAD => "UNREAD"
  | READ => "READ"
  | ARCHIVED => "ARCHIVED"
  end.

(** The member a text of the column names, if it names one. *)
Definition member_named (text : string) : option NotificationStatus :=
  if String.eqb text "UNREAD" then Some UNREAD
  else if String.eqb text "READ" then Some READ
  else if String.eqb text "ARCHIVED" then Some ARCHIVED
  else None.

(** The row an object is stored as. *)
Definition store (n : Notification.t) : t :=
  mk (Notification.id n) (Notification.user_id n) (Notification.title n)
     (Notification.content n) (Notification.type n) (Notification.priority n)
     (name_of (Notification.status n))
     (Notification.related_id n) (Notification.related_data n)
     (Notification.created_at n) (Notification.read_at n).
End NotificationRow.

Module CRUDNotification.

(** What a caller passes for [status]: a member of the model's enum,
    as the signature says, or a member of the schema's enum, which is
    what [batch_update.status] is in the one caller of the repository,
    the endpoint [batch_update_notifications]. *)
Inductive StatusArgument :=
  | ModelStatus (s : NotificationStatus)
  | SchemaStatus (s : Schemas.NotificationStatus).

(** The text the UPDATE writes for the argument: the name of a member
    of the column's enum; a string that is not such a member is taken
    as it is. *)
Definition bound_status (status : StatusArgument) : string :=
  match status with
  | ModelStatus s => NotificationRow.name_of s
  | SchemaStatus s => Schemas.value s
  end.

(** An integer SQLite can take as a parameter: the driver refuses,
    with [OverflowError], one outside the signed 64-bit range. *)
Definition sqlite_integer (i : Z) : bool :=
  (- 2 ^ 63 <=? i) && (i <? 2 ^ 63).

(** [Notification.id.in_(ids)] *)
Definition in_ (ids : list Z) (i : Z) : bool := existsb (Z.eqb i) ids.

(** The filter of [batch_update_status]. *)
Definition selected (notification_ids : list Z) (user_id : Z)
    (n : NotificationRow.t) : bool :=
  in_ notification_ids (NotificationRow.id n) && (NotificationRow.user_id n =? user_id).

Section BatchUpdateStatus.

(** The most parameters a statement may have
    ([SQLITE_MAX_VARIABLE_NUMBER], fixed when the SQLite library is
    built); a statement with more is refused with [OperationalError]. *)
Variable max_variable_number : nat.

(** [query.filter(...).update({"status": status})] followed by the
    commit: the number of rows matched, and the table afterwards.  The
    statement has a parameter for the status, one for each listed id
    and one for [user_id]. *)
Definition batch_update_status (db : list NotificationRow.t)
    (notification_ids : list Z) (user_id : Z) (status : StatusArgument)
    : outcome Z * list NotificationRow.t :=
  if (max_variable_number <? 2 + length notification_ids)%nat
  then (Raised OperationalError, db)
  else if negb (forallb sqlite_integer notification_ids && sqlite_integer user_id)
  then (Raised OverflowError, db)
  else
    let count := Z.of_nat (length (List.filter (selected notification_ids user_id) db)) in
    (Returned count,
     map (fun n => if selected notification_ids user_id n
                   then NotificationRow.with_status (bound_status status) n else n) db).

End BatchUpdateStatus.

End CRUDNotification.

(** ** Sample data *)

Module Sample.

(** An implementation of the security interface to run the code with:
    the hash of [p] is [p] behind a prefix. *)
Definition security : Security :=
  {| get_password_hash := fun p => "hash:" ++ p;
     verify_hash := fun p h => String.eqb ("hash:" ++ p) h;
     create_access_token := fun _ _ => "access-token";
     create_refresh_token := fun _ _ => "refresh-token" |}.

(** A clock that advances by one microsecond between two readings, and
    one that advances by a minute. *)
Definition fine_clock (k : nat) : datetime := Z.of_nat k + 1700000000000000.
Definition coarse_clock (k : nat) : datetime := Z.of_nat k * minutes 1.

Definition draws : list string := ["k3x9q2mz"; "Zr#8vLq!02Wd"; "a1b2c3d4"; "Yt$5nMp@77Ke"].

(** An empty database and an empty Redis. *)
Definition fresh : World := mkWorld [] ∅ true fine_clock 0 draws.
Definition fresh_coarse : World := mkWorld [] ∅ true coarse_clock 0 draws.

Definition alice : UserRegister.t :=
  UserRegister.mk "alice" "alice@x.com" "pw123456" "123456".

Definition phone : AutoRegister.t :=
  AutoRegister.mk (Some "device_12345678") (Some "Mozilla/5.0").


Definition google_bob : OAuthInfo.t :=
  OAuthInfo.mk "google" "557301" "bob@x.com" true.

(** A lifetime member without subscription dates. *)
Definition lifetime_member : User :=
  mkUser 1 "carol" (Some "carol@x.com") (Some "hash:secret") LIFETIME ACTIVE
    None None None None None false None None None None
    999 15 true true true (Some 1600000000000000) None None.

(** An account created through OAuth: no password hash. *)
Definition oauth_bob : User :=
  mkUser 2 "user_a1b2c3d4" (Some "bob@x.com") None TRIAL ACTIVE
    None None None (Some "google") (Some "557301") true
    (Some 1700000000000000) (Some 1700259200000000) None None
    5 0 true false true (Some 1700000000000000) None None.

(** A row for a device, as the seeding script [init_db.py] writes one. *)
Definition auto_user : User :=
  mkUser 3 "user_device01" None None TRIAL ACTIVE
    (Some "device_12345678") (Some "Mozilla/5.0") (Some "192.168.1.100")
    None None false
    None (Some 1700259200000000) None None
    5 1 true false true (Some 1700000000000000) None (Some 1700000000000000).

Definition seeded : World :=
  mkWorld [lifetime_member; oauth_bob; auto_user] ∅ true fine_clock 0 draws.

(** The state after a verification code was issued to [alice]. *)
Definition code_issued (w : World) : World :=
  snd (EmailService.store_verification_code "alice@x.com" "123456"
         EmailService.default_expires_in w).


(** Two accounts of which the later one took, as its username, the
    e-mail address of the earlier one. *)
Definition mallory : User :=
  mkUser 1 "mallory" (Some "eve@x.com") (Some "hash:first") TRIAL ACTIVE
    None None None None None false
    (Some 1700000000000000) (Some 1700259200000000) None None
    5 0 true false true (Some 1700000000000000) None None.

Definition eve : User :=
  mkUser 2 "eve@x.com" (Some "eve2@x.com") (Some "hash:second") TRIAL ACTIVE
    None None None None None false
    (Some 1700000000000000) (Some 1700259200000000) None None
    5 0 true false true (Some 1700000000000000) None None.

Definition namesakes : list User := [mallory; eve].

(** An unread notification of account 1 and one of account 2, as
    stored, and the limit of parameters of SQLite as it is built by
    default since version 3.32. *)
Definition inbox : list NotificationRow.t :=
  [NotificationRow.mk 1 1 "Transfer" "0.5 BTC received" WALLET HIGH "UNREAD"
     None None (Some 1700000000000000) None;
   NotificationRow.mk 2 2 "Post" "A new post" TWITTER MEDIUM "UNREAD"
     None None (Some 1700000000000000) None].

Definition sqlite_max_variable_number : nat := Z.to_nat 32766.


End Sample.

(** * Further operations of the cited files *)

From Stdlib Require Import Sorted Permutation Ascii.

(** ** Strings *)

(** [len(s)] of a [str] counts characters.  A string here is the UTF-8
    encoding of the text: the bytes of a character are one leading
    byte followed by continuation bytes ([10xxxxxx]), so the characters
    are as many as the bytes that are not continuation bytes. *)
Definition is_continuation_byte (c : ascii) : bool :=
  match c with
  | Ascii _ _ _ _ _ _ false true => true
  | _ => false
  end.

Fixpoint py_len (s : string) : nat :=
  match s with
  | EmptyString => 0%nat
  | String c rest =>
      ((if is_continuation_byte c then 0 else 1) + py_len rest)%nat
  end.

(** ** app/crud/crud_notification.py: the inbox *)

Definition NotificationStatus_eqb (a b : NotificationStatus) : bool :=
  match a, b with
  | UNREAD, UNREAD | READ, READ | ARCHIVED, ARCHIVED => true
  | _, _ => false
  end.


Module Inbox.

Import Notification.

(** The assignments [status = ...; read_at = ...]. *)
Definition with_read (s : NotificationStatus) (at_ : option datetime) (n : t) : t :=
  mk (id n) (user_id n) (title n) (content n) (type n) (priority n) s
     (related_id n) (related_data n) (created_at n) at_.

(** [and_(Notification.id == id, Notification.user_id == user_id)] *)
Definition owned (notification_id owner : Z) (n : t) : bool :=
  (id n =? notification_id) && (user_id n =? owner).

(** [and_(Notification.user_id == user_id,
         Notification.status == NotificationStatus.UNREAD)] *)
Definition unread_of (owner : Z) (n : t) : bool :=
  (user_id n =? owner) && NotificationStatus_eqb (status n) UNREAD.

(** The UPDATE and DELETE of one loaded object address its row by
    primary key. *)
Definition update_row (obj : t) (db : list t) : list t :=
  map (fun row => if id row =? id obj then obj else row) db.

Definition delete_row (obj : t) (db : list t) : list t :=
  List.filter (fun row => negb (id row =? id obj)) db.

Definition get (db : list t) (id' : Z) : option t :=
  find (fun n => id n =? id') db.

Definition get_unread_count (db : list t) (owner : Z) : Z :=
  Z.of_nat (length (List.filter (unread_of owner) db)).


(** [now] is the [datetime.utcnow()] read for the UPDATE. *)
Definition mark_all_as_read (db : list t) (owner : Z) (now : datetime)
    : Z * list t :=
  let count := Z.of_nat (length (List.filter (unread_of owner) db)) in
  (count,
   map (fun n => if unread_of owner n then with_read READ (Some now) n else n) db).

Definition delete (db : list t) (id' owner : Z) : bool * list t :=
  match find (owned id' owner) db with
  | Some notification => (true, delete_row notification db)
  | None => (false, db)
  end.






End Inbox.

(** ** app/api/v1/endpoints/notifications.py *)

Module NotificationList.
Record t := mk {
  notifications : list Notification.t;
  total : Z;
  unread_count : Z
}.
End NotificationList.



(** ** app/models/notification.py and crud_notification.py: settings *)

Module NotificationSettings.
Record t := mk {
  id : Z;
  user_id : Z;
  notifications_enabled : bool;
  twitter_notifications : bool;
  wallet_notifications : bool;
  blackrock_notifications : bool;
  system_notifications : bool;
  email_notifications : bool;
  browser_notifications : bool;
  quiet_hours_enabled : bool;
  quiet_hours_start : string;
  quiet_hours_end : string;
  max_notifications_per_hour : Z;
  max_notifications_per_day : Z;
  created_at : option datetime;
  updated_at : option datetime
}.
End NotificationSettings.

(** [obj_in.dict(exclude_unset=True)] of a [NotificationSettingsUpdate]:
    a field is there when the request set it.  The fields of the
    schema are not [Optional] ([bool], [str] and [int] fields with
    defaults): a request that sends [null] for one is refused by the
    validation of the body, so that a field is either left out
    ([None] here) or set to a value of its type. *)
Module NotificationSettingsUpdate.
Record t := mk {
  notifications_enabled : option bool;
  twitter_notifications : option bool;
  wallet_notifications : option bool;
  blackrock_notifications : option bool;
  system_notifications : option bool;
  email_notifications : option bool;
  browser_notifications : option bool;
  quiet_hours_enabled : option bool;
  quiet_hours_start : option string;
  quiet_hours_end : option string;
  max_notifications_per_hour : option Z;
  max_notifications_per_day : option Z
}.
End NotificationSettingsUpdate.

Module CRUDNotificationSettings.

Import NotificationSettings.

Definition next_id (db : list t) : Z := 1 + fold_right Z.max 0 (map id db).

(** [NotificationSettings(user_id=user_id)] once stored: the column
    defaults, and the server default [now()] of [created_at]. *)
Definition new_settings (db : list t) (owner : Z) (server_now : datetime) : t :=
  mk (next_id db) owner true true true true true true true false
     "22:00" "08:00" 20 200 (Some server_now) None.

Definition get_or_create (db : list t) (owner : Z) (server_now : datetime)
    : t * list t :=
  match find (fun s => user_id s =? owner) db with
  | Some settings => (settings, db)
  | None =>
      let settings := new_settings db owner server_now in
      (settings, (db ++ [settings])%list)
  end.

Definition or_keep {A} (given : option A) (current : A) : A :=
  match given with Some v => v | None => current end.

(** The [setattr] loop over the fields the request set, and
    [settings.updated_at = datetime.utcnow()]. *)
Definition assign (update_data : NotificationSettingsUpdate.t) (now : datetime)
    (s : t) : t :=
  mk (id s) (user_id s)
     (or_keep (NotificationSettingsUpdate.notifications_enabled update_data)
        (notifications_enabled s))
     (or_keep (NotificationSettingsUpdate.twitter_notifications update_data)
        (twitter_notifications s))
     (or_keep (NotificationSettingsUpdate.wallet_notifications update_data)
        (wallet_notifications s))
     (or_keep (NotificationSettingsUpdate.blackrock_notifications update_data)
        (blackrock_notifications s))
     (or_keep (NotificationSettingsUpdate.system_notifications update_data)
        (system_notifications s))
     (or_keep (NotificationSettingsUpdate.email_notifications update_data)
        (email_notifications s))
     (or_keep (NotificationSettingsUpdate.browser_notifications update_data)
        (browser_notifications s))
     (or_keep (NotificationSettingsUpdate.quiet_hours_enabled update_data)
        (quiet_hours_enabled s))
     (or_keep (NotificationSettingsUpdate.quiet_hours_start update_data)
        (quiet_hours_start s))
     (or_keep (NotificationSettingsUpdate.quiet_hours_end update_data)
        (quiet_hours_end s))
     (or_keep (NotificationSettingsUpdate.max_notifications_per_hour update_data)
        (max_notifications_per_hour s))
     (or_keep (NotificationSettingsUpdate.max_notifications_per_day update_data)
        (max_notifications_per_day s))
     (created_at s) (Some now).

Definition update_row (obj : t) (db : list t) : list t :=
  map (fun row => if id row =? id obj then obj else row) db.

(** [server_now] is read if the row has to be created, [now] is the
    [datetime.utcnow()] of the update. *)
Definition update (db : list t) (owner : Z)
    (obj_in : NotificationSettingsUpdate.t) (server_now now : datetime)
    : t * list t :=
  let created := get_or_create db owner server_now in
  let settings := assign obj_in now (fst created) in
  (settings, update_row settings (snd created)).

End CRUDNotificationSettings.

(** ** app/crud/crud_user.py: the remaining operations *)

Section CRUDUserMore.

Context `{Security} (settings : Settings).

(** [create_auto_user]: the account of a device, without e-mail
    address. *)
Definition create_auto_user (obj_in : AutoRegister.t) (ip_address : option string)
    : M User :=
  let* username := generate_unique_username in
  let* password := generate_random_password in
  let hashed_password := get_password_hash password in
  let* max_follows := lift (settings_int settings "TRIAL_MAX_FOLLOWS") in
  let* trial_start := utcnow in
  let* trial_end_base := utcnow in
  let* trial_days := lift (settings_int settings "TRIAL_PERIOD_DAYS") in
  let* created := utcnow in
  let* last_login := utcnow in
  db_insert
    {| id := 0;
       username := username;
       email := None;
       hashed_password := Some hashed_password;
       user_type := TRIAL;
       status := ACTIVE;
       device_id := AutoRegister.device_id obj_in;
       user_agent := AutoRegister.user_agent obj_in;
       ip_address := ip_address;
       oauth_provider := None;
       oauth_provider_id := None;
       oauth_email_verified := false;
       trial_start_date := Some trial_start;
       trial_end_date := Some (trial_end_base + days trial_days);
       subscription_start_date := None;
       subscription_end_date := None;
       max_follows := max_follows;
       current_follows := 0;
       email_notifications := true;
       sms_notifications := false;
       push_notifications := true;
       created_at := Some created;
       updated_at := None;
       last_login_at := Some last_login |}.

End CRUDUserMore.

(** ** app/models/user.py: the properties, reading the clock *)

(** [is_trial_expired] and [is_subscription_active] as the properties
    they are: [datetime.utcnow()] is read on the paths that compare
    with it, and on no other. *)
Definition read_is_trial_expired (self : User) : M bool :=
  if negb (UserType_eqb (user_type self) TRIAL) then ret false
  else match trial_end_date self with
       | None => ret false
       | Some trial_end =>
           let* now := utcnow in
           ret (now >? trial_end)
       end.

Definition read_is_subscription_active (self : User) : M bool :=
  if UserType_eqb (user_type self) TRIAL then
    let* expired := read_is_trial_expired self in
    ret (negb expired)
  else if UserType_eqb (user_type self) LIFETIME then ret true
  else match subscription_end_date self with
       | None => ret false
       | Some subscription_end =>
           let* now := utcnow in
           ret (now <=? subscription_end)
       end.

(** ** app/api/deps.py *)

Section Deps.

(** [verify_token] of the absent [app/core/security.py]: [None] when
    what it returns is falsy, else the integer [int(user_id)]. *)
Variable verify_token : string -> option Z.

Definition get_current_user (token : string) : M User :=
  match verify_token token with
  | None => raise (HTTPException 401)
  | Some user_id =>
      let* user := db_query (fun us => find (fun u => id u =? user_id) us) in
      match user with
      | None => raise (HTTPException 401)
      | Some user =>
          match status user with
          | ACTIVE => ret user
          | _ => raise (HTTPException 403)
          end
      end
  end.

Definition get_current_active_user (token : string) : M User :=
  let* current_user := get_current_user token in
  let* active := read_is_subscription_active current_user in
  if negb active then raise (HTTPException 403)
  else ret current_user.

(** [credentials] is [None] when the request carries none. *)
Definition get_optional_user (credentials : option string) : M (option User) :=
  match credentials with
  | None => ret None
  | Some token =>
      try_except
        (let* user := get_current_user token in ret (Some user))
        (fun e =>
           match e with
           | HTTPException _ => ret None
           | _ => raise e
           end)
  end.

End Deps.

(** ** app/api/v1/endpoints/auth.py: login and code request *)

Section AuthMore.

Context `{Security} (settings : Settings).

Definition login_for_access_token (username' password : string)
    : M TokenResponse.t :=
  let* user := db_query (fun us => authenticate us username' password) in
  match user with
  | None => raise (HTTPException 401)
  | Some user =>
      let* access_minutes :=
        lift (settings_int settings "ACCESS_TOKEN_EXPIRE_MINUTES") in
      let access_token_expires := minutes access_minutes in
      let* refresh_minutes :=
        lift (settings_int settings "REFRESH_TOKEN_EXPIRE_MINUTES") in
      let refresh_token_expires := minutes refresh_minutes in
      let* logged := update_last_login (id user) in
      let user := after_call user logged in
      ret (TokenResponse.mk
             (create_access_token (id user) access_token_expires)
             (create_refresh_token (id user) refresh_token_expires)
             "bearer"
             (td_seconds access_token_expires)
             user)
  end.

(** The endpoint [send_verification_code]; it returns
    [{"success": True, ...}], here [tt]. *)
Definition send_verification_code_endpoint (email' : string) : M unit :=
  let* user := db_query (fun us => get_by_email us email') in
  if is_Some_b user then raise (HTTPException 400) else
  let* sent := EmailService.send_verification_code email' in
  if sent then ret tt
  else raise (HTTPException 500).

End AuthMore.

(** ** app/api/v1/endpoints/users.py *)

Module UserUpdate.
Record t := mk {
  username : option string;
  email : option string;
  email_notifications : option bool;
  sms_notifications : option bool;
  push_notifications : option bool
}.
End UserUpdate.

(** [user_update.<name>] for the string fields.  [UserUpdate] declares
    [username] and [email] (and the three switches): reading any other
    attribute of the request body raises [AttributeError]. *)
Definition user_update_str (user_update : UserUpdate.t) (name : string)
    : outcome (option string) :=
  if String.eqb name "username" then Returned (UserUpdate.username user_update)
  else if String.eqb name "email" then Returned (UserUpdate.email user_update)
  else Raised AttributeError.

(** Truth value of an optional string: [None] and [""] are falsy. *)
Definition truthy_str (value : option string) : bool :=
  match value with
  | Some s => negb (String.eqb s "")
  | None => false
  end.

(** [a != b] for a string and a nullable column. *)
Definition differs (value : string) (column : option string) : bool :=
  negb (col_eqb column value).

Definition with_username (name : string) (u : User) : User :=
  mkUser (id u) name (email u) (hashed_password u) (user_type u) (status u)
    (device_id u) (user_agent u) (ip_address u)
    (oauth_provider u) (oauth_provider_id u) (oauth_email_verified u)
    (trial_start_date u) (trial_end_date u)
    (subscription_start_date u) (subscription_end_date u)
    (max_follows u) (current_follows u)
    (email_notifications u) (sms_notifications u) (push_notifications u)
    (created_at u) (updated_at u) (last_login_at u).

Definition with_email (address : option string) (u : User) : User :=
  mkUser (id u) (username u) address (hashed_password u) (user_type u) (status u)
    (device_id u) (user_agent u) (ip_address u)
    (oauth_provider u) (oauth_provider_id u) (oauth_email_verified u)
    (trial_start_date u) (trial_end_date u)
    (subscription_start_date u) (subscription_end_date u)
    (max_follows u) (current_follows u)
    (email_notifications u) (sms_notifications u) (push_notifications u)
    (created_at u) (updated_at u) (last_login_at u).

Definition with_hashed_password (h : option string) (u : User) : User :=
  mkUser (id u) (username u) (email u) h (user_type u) (status u)
    (device_id u) (user_agent u) (ip_address u)
    (oauth_provider u) (oauth_provider_id u) (oauth_email_verified u)
    (trial_start_date u) (trial_end_date u)
    (subscription_start_date u) (subscription_end_date u)
    (max_follows u) (current_follows u)
    (email_notifications u) (sms_notifications u) (push_notifications u)
    (created_at u) (updated_at u) (last_login_at u).

Definition with_status (s : UserStatus) (u : User) : User :=
  mkUser (id u) (username u) (email u) (hashed_password u) (user_type u) s
    (device_id u) (user_agent u) (ip_address u)
    (oauth_provider u) (oauth_provider_id u) (oauth_email_verified u)
    (trial_start_date u) (trial_end_date u)
    (subscription_start_date u) (subscription_end_date u)
    (max_follows u) (current_follows u)
    (email_notifications u) (sms_notifications u) (push_notifications u)
    (created_at u) (updated_at u) (last_login_at u).

Definition with_switches (by_email by_sms by_push : bool) (u : User) : User :=
  mkUser (id u) (username u) (email u) (hashed_password u) (user_type u) (status u)
    (device_id u) (user_agent u) (ip_address u)
    (oauth_provider u) (oauth_provider_id u) (oauth_email_verified u)
    (trial_start_date u) (trial_end_date u)
    (subscription_start_date u) (subscription_end_date u)
    (max_follows u) (current_follows u)
    by_email by_sms by_push
    (created_at u) (updated_at u) (last_login_at u).

(** The constraints of table [users] checked when the changed columns of
    a loaded row are written back: [email] must not become [NULL], and
    a username or e-mail address that changed must not be the one of
    another row. *)
Definition update_violates (us : list User) (old new : User) : bool :=
  (is_present (email old) && negb (is_present (email new)))
  || (negb (String.eqb (username old) (username new)) &&
      existsb (fun v => negb (id v =? id new) &&
                        String.eqb (username v) (username new)) us)
  || (negb (same_present (email old) (email new)) &&
      existsb (fun v => negb (id v =? id new) &&
                        same_present (email v) (email new)) us).

(** [db.commit()] with the loaded object [old] changed into [new]. *)
Definition db_commit_changes (old new : User) : M User :=
  fun w =>
    if update_violates (users w) old new then (Raised IntegrityError, w)
    else db_update_stamped new w.

Section UsersEndpoints.

Context `{Security}.

(** [current_user] is the account [get_current_user] resolved, an
    object of the request's session.  Assignments to it stay in memory
    until [db.commit()]; the session does not flush before a query
    ([autoflush=False] in [app/db/base.py]). *)
Definition update_user_profile (user_update : UserUpdate.t) (current_user : User)
    : M User :=
  let* new_username := lift (user_update_str user_update "username") in
  let* user :=
    (if truthy_str new_username &&
        negb (same_present new_username (Some (username current_user)))
     then
       let name := default "" new_username in
       let* existing_user :=
         db_query (fun us =>
                     find (fun v => String.eqb (username v) name &&
                                    negb (id v =? id current_user)) us) in
       if is_Some_b existing_user then raise (HTTPException 400)
       else ret (with_username name current_user)
     else ret current_user) in
  let* new_email := lift (user_update_str user_update "email") in
  let* user :=
    (if truthy_str new_email &&
        differs (default "" new_email) (email current_user)
     then
       let address := default "" new_email in
       let* existing_user :=
         db_query (fun us =>
                     find (fun v => col_eqb (email v) address &&
                                    negb (id v =? id current_user)) us) in
       if is_Some_b existing_user then raise (HTTPException 400)
       else ret (with_email (Some address) user)
     else ret user) in
  let* new_phone := lift (user_update_str user_update "phone") in
  let* user :=
    (if truthy_str new_phone
     then (* [current_user.phone]: the model has no such column *)
       raise AttributeError
     else ret user) in
  let user :=
    with_switches
      (default (email_notifications user) (UserUpdate.email_notifications user_update))
      (default (sms_notifications user) (UserUpdate.sms_notifications user_update))
      (default (push_notifications user) (UserUpdate.push_notifications user_update))
      user in
  db_commit_changes current_user user.

(** The endpoints below return a fixed message, here [tt]. *)
Definition change_password (old_password new_password : string)
    (current_user : User) : M unit :=
  if negb (truthy_str (hashed_password current_user))
  then raise (HTTPException 400) else
  if negb (verify_password old_password (hashed_password current_user))
  then raise (HTTPException 400) else
  db_commit_changes current_user
    (with_hashed_password (Some (get_password_hash new_password)) current_user) ;;;
  ret tt.

Definition set_password (new_password : string) (current_user : User) : M unit :=
  if truthy_str (hashed_password current_user)
  then raise (HTTPException 400) else
  if (py_len new_password <? 6)%nat
  then raise (HTTPException 400) else
  db_commit_changes current_user
    (with_hashed_password (Some (get_password_hash new_password)) current_user) ;;;
  ret tt.

Definition delete_account (current_user : User) : M unit :=
  (* [current_user.phone = None] sets a plain attribute of the object *)
  db_commit_changes current_user
    (with_email None (with_status INACTIVE current_user)) ;;;
  ret tt.

End UsersEndpoints.

Module SubscriptionStatus.
Record t := mk {
  user_type : UserType;
  status : UserStatus;
  is_trial : bool;
  is_trial_expired : bool;
  is_subscription_active : bool;
  trial_end_date : option datetime;
  subscription_end_date : option datetime;
  max_follows : Z;
  current_follows : Z;
  can_add_follows : bool
}.
End SubscriptionStatus.

Definition get_subscription_status (current_user : User) : M SubscriptionStatus.t :=
  let is_trial := UserType_eqb (user_type current_user) TRIAL in
  let* expired := read_is_trial_expired current_user in
  let* active := read_is_subscription_active current_user in
  ret (SubscriptionStatus.mk
         (user_type current_user)
         (status current_user)
         is_trial
         expired
         active
         (trial_end_date current_user)
         (subscription_end_date current_user)
         (max_follows current_user)
         (current_follows current_user)
         (can_add_follows current_user)).

(** ** app/crud/crud_notification.py: [get_stats] *)


Module NotificationStats.
Record t := mk {
  total_notifications : Z;
  unread_count : Z;
  read_count : Z;
  archived_count : Z;
  notifications_by_type : list (NotificationType * Z);
  notifications_by_priority : list (NotificationPriority * Z)
}.
End NotificationStats.

Module InboxStats.

Import Notification.

(** [query.filter(...).count()] *)
Definition count (p : t -> bool) (db : list t) : Z :=
  Z.of_nat (length (List.filter p db)).





End InboxStats.

(** * Properties *)

Local Open Scope list_scope.

(** ** Entitlement *)

Section Entitlement.

Implicit Types (account : User) (now : datetime).

Lemma UserType_eqb_eq (a b : UserType) : UserType_eqb a b = true <-> a = b.
Proof. destruct a, b; simpl; split; congruence. Qed.

Lemma is_trial_expired_iff account now :
  is_trial_expired account now = true <->
  user_type account = TRIAL /\
  exists trial_end, trial_end_date account = Some trial_end /\ now > trial_end.
Proof.
  unfold is_trial_expired.
  destruct (user_type account) eqn:Ht; simpl;
    try (split; [discriminate | intros [? _]; discriminate]).
  destruct (trial_end_date account) as [t|] eqn:He.
  - rewrite Z.gtb_gt. split.
    + intros H. split; [reflexivity | exists t; split; [reflexivity | lia]].
    + intros [_ (t' & [= <-] & H)]. lia.
  - split; [discriminate | intros [_ (t' & [=] & _)]].
Qed.

(** C1. [is_subscription_active] is the negation of [is_trial_expired]
    on the trial tier, is true on the lifetime tier whatever the stored
    dates are (also with no [subscription_end_date]), and on the other
    tiers is true exactly when [subscription_end_date] is set and
    [now <= subscription_end_date]; [is_trial_expired] is true exactly
    when the tier is trial, [trial_end_date] is set and
    [now > trial_end_date]. *)
Theorem entitlement_derivation account now :
  (user_type account = TRIAL ->
     is_subscription_active account now = negb (is_trial_expired account now)) /\
  (user_type account = LIFETIME -> is_subscription_active account now = true) /\
  (user_type account <> TRIAL -> user_type account <> LIFETIME ->
     (is_subscription_active account now = true <->
      exists subscription_end,
        subscription_end_date account = Some subscription_end /\
        now <= subscription_end)) /\
  (is_trial_expired account now = true <->
     user_type account = TRIAL /\
     exists trial_end, trial_end_date account = Some trial_end /\ now > trial_end).
Proof.
  split; [| split; [| split]].
  - intros Ht. unfold is_subscription_active. now rewrite Ht.
  - intros Ht. unfold is_subscription_active. now rewrite Ht.
  - intros Hnt Hnl. unfold is_subscription_active.
    destruct (user_type account); try congruence; simpl;
      (destruct (subscription_end_date account) as [e|];
       [ rewrite Z.leb_le; split;
         [ intros H; exists e; split; [reflexivity | exact H]
         | intros (e' & [= <-] & H); exact H ]
       | split; [discriminate | intros (e' & [=] & _)] ]).
  - apply is_trial_expired_iff.
Qed.

End Entitlement.

(** ** Refresh tokens *)

Section RefreshToken.

Context `{Security} (settings : Settings).

Lemma verify_refresh_token_try_raises (refresh_token : string) :
  verify_refresh_token_try settings refresh_token = Raised AttributeError.
Proof. reflexivity. Qed.

(** C3. What the code does with a refresh token: whatever the string
    is, also a token that [create_refresh_token] has just issued,
    [verify_refresh_token] returns [None] (the value checked is the
    boolean of [verify_password], which has no [get]), and the endpoint
    answers 401 and leaves the state as it was. *)
Theorem verify_refresh_token_always_none (refresh_token : string) (w : World) :
  verify_refresh_token settings refresh_token = None /\
  refresh_access_token settings refresh_token w = (Raised (HTTPException 401), w).
Proof.
  assert (Hnone : verify_refresh_token settings refresh_token = None).
  { unfold verify_refresh_token.
    now rewrite verify_refresh_token_try_raises. }
  split; [exact Hnone |].
  unfold refresh_access_token. now rewrite Hnone.
Qed.

End RefreshToken.

(** ** Usage statistics *)

(** C10. [get_usage_stats] reports an account age of 0 days and 0
    notifications today for every account, whenever it was created. *)
Theorem usage_stats_age_is_zero (current_user : User) :
  UsageStats.account_age_days (get_usage_stats current_user) = 0 /\
  UsageStats.notifications_today (get_usage_stats current_user) = 0.
Proof.
  split; [| reflexivity].
  unfold get_usage_stats; simpl.
  destruct (created_at current_user) as [created|]; [| reflexivity].
  unfold td_days. rewrite Z.sub_diag. apply Z.div_0_l.
  unfold microseconds_per_day, microseconds_per_second. lia.
Qed.

(** ** Notification store *)

Section BatchUpdate.

Import CRUDNotification.

Implicit Types (db : list NotificationRow.t) (ids : list Z) (n : NotificationRow.t).

Lemma lookup_map_row {A B} (f : A -> B) (l : list A) (i : nat) :
  map f l !! i = f <$> (l !! i).
Proof.
  revert i. induction l as [|x l IH]; intros [|i]; simpl; auto.
Qed.

Lemma in_spec ids (i : Z) : in_ ids i = true <-> In i ids.
Proof.
  unfold in_. rewrite existsb_exists. split.
  - intros (x & Hx & Heq). apply Z.eqb_eq in Heq. now subst.
  - intros Hin. exists i. split; [exact Hin | apply Z.eqb_refl].
Qed.

Lemma selected_owner ids caller n :
  selected ids caller n = true -> NotificationRow.user_id n = caller.
Proof.
  unfold selected. intros [_ Ho]%andb_prop. now apply Z.eqb_eq.
Qed.

Lemma filter_none_length {A} (p : A -> bool) (l : list A) :
  (forall x, In x l -> p x = false) -> length (List.filter p l) = 0%nat.
Proof.
  induction l as [|x l IH]; intros Hall; simpl; [reflexivity |].
  rewrite (Hall x (or_introl eq_refl)). apply IH.
  intros y Hy. apply Hall. now right.
Qed.

Lemma sqlite_integer_spec (i : Z) :
  sqlite_integer i = true <-> - 2 ^ 63 <= i < 2 ^ 63.
Proof.
  unfold sqlite_integer. rewrite andb_true_iff, Z.leb_le, Z.ltb_lt. reflexivity.
Qed.

(** The parameters of the statement are all integers SQLite takes. *)
Lemma parameters_taken ids (caller : Z) :
  forallb sqlite_integer ids && sqlite_integer caller = true <->
  forall i, In i (caller :: ids) -> - 2 ^ 63 <= i < 2 ^ 63.
Proof.
  rewrite andb_true_iff, forallb_forall. split.
  - intros [Hids Hcaller] i [<- | Hi]; apply sqlite_integer_spec; auto.
  - intros Hall. split.
    + intros i Hi. apply sqlite_integer_spec. apply Hall. now right.
    + apply sqlite_integer_spec. apply Hall. now left.
Qed.

(** The rows after an UPDATE that went through. *)
Lemma batch_update_status_accepted (limit : nat) db ids (caller : Z)
    (status : StatusArgument) :
  (2 + length ids <= limit)%nat ->
  (forall i, In i (caller :: ids) -> - 2 ^ 63 <= i < 2 ^ 63) ->
  batch_update_status limit db ids caller status =
    (Returned (Z.of_nat (length (List.filter (selected ids caller) db))),
     map (fun n => if selected ids caller n
                   then NotificationRow.with_status (bound_status status) n
                   else n) db).
Proof.
  intros Hfew Hrange. unfold batch_update_status.
  replace (limit <? 2 + length ids)%nat with false
    by (symmetry; apply Nat.ltb_ge; exact Hfew).
  apply parameters_taken in Hrange. now rewrite Hrange.
Qed.

(** The table after a call is the table before it, or the rows after
    the UPDATE. *)
Lemma batch_update_status_table (limit : nat) db ids (caller : Z)
    (status : StatusArgument) :
  snd (batch_update_status limit db ids caller status) = db \/
  snd (batch_update_status limit db ids caller status) =
    map (fun n => if selected ids caller n
                  then NotificationRow.with_status (bound_status status) n
                  else n) db.
Proof.
  unfold batch_update_status.
  destruct (limit <? 2 + length ids)%nat; [now left |].
  destruct (forallb sqlite_integer ids && sqlite_integer caller);
    [now right | now left].
Qed.

(** C9, as amended.  [batch_update_status] touches only rows of the
    calling account: whatever the list, a row of another account and a
    row that is not listed stay exactly as they were.  When SQLite
    takes the parameters (the status, the ids and the caller's id are
    not more than the engine allows in a statement, and every id and
    the caller's id is in the signed 64-bit range) the call returns: a
    listed id that the caller does not own is passed over without an
    error, a listed row of the caller gets the text bound for the
    status and nothing else, and the number returned is the number of
    listed rows the caller owns; it is 0, and the table is unchanged,
    when every listed id belongs to somebody else.  Otherwise the call
    raises ([OperationalError] for too many parameters, [OverflowError]
    for an integer outside the range) and the table is unchanged.  The
    text bound for a member of the model's enum is the name of that
    member; the text bound for a member of the schema's enum, which is
    what the endpoint passes, names no member. *)
Theorem batch_update_status_owner_only (limit : nat) db ids (caller : Z)
    (status : StatusArgument) :
  let result := batch_update_status limit db ids caller status in
  length (snd result) = length db /\
  (forall i n, db !! i = Some n -> NotificationRow.user_id n <> caller ->
               snd result !! i = Some n) /\
  (forall i n, db !! i = Some n -> ~ In (NotificationRow.id n) ids ->
               snd result !! i = Some n) /\
  ((2 + length ids <= limit)%nat ->
   (forall i, In i (caller :: ids) -> - 2 ^ 63 <= i < 2 ^ 63) ->
   fst result =
     Returned
       (Z.of_nat (length (List.filter
                            (fun n => existsb (Z.eqb (NotificationRow.id n)) ids &&
                                      (NotificationRow.user_id n =? caller)) db))) /\
   (forall i n, db !! i = Some n -> In (NotificationRow.id n) ids ->
                NotificationRow.user_id n = caller ->
                snd result !! i =
                  Some (NotificationRow.with_status (bound_status status) n)) /\
   ((forall n, In n db -> In (NotificationRow.id n) ids ->
               NotificationRow.user_id n <> caller) ->
    fst result = Returned 0 /\ snd result = db)) /\
  ((limit < 2 + length ids)%nat -> result = (Raised OperationalError, db)) /\
  ((2 + length ids <= limit)%nat ->
   (exists i, In i (caller :: ids) /\ (i < - 2 ^ 63 \/ 2 ^ 63 <= i)) ->
   result = (Raised OverflowError, db)) /\
  (forall s, NotificationRow.member_named (bound_status (ModelStatus s)) = Some s) /\
  (forall s, NotificationRow.member_named (bound_status (SchemaStatus s)) = None).
Proof.
  cbv zeta.
  split; [| split; [| split; [| split; [| split; [| split; [| split]]]]]].
  - destruct (batch_update_status_table limit db ids caller status) as [-> | ->];
      [reflexivity | apply length_map].
  - intros i n Hi Hown.
    destruct (batch_update_status_table limit db ids caller status) as [-> | ->];
      [exact Hi |].
    rewrite lookup_map_row, Hi. simpl.
    destruct (selected ids caller n) eqn:Hs; [| reflexivity].
    apply selected_owner in Hs. contradiction.
  - intros i n Hi Hnot.
    destruct (batch_update_status_table limit db ids caller status) as [-> | ->];
      [exact Hi |].
    rewrite lookup_map_row, Hi. simpl.
    destruct (selected ids caller n) eqn:Hs; [| reflexivity].
    unfold selected in Hs. apply andb_prop in Hs as [Hin _].
    apply in_spec in Hin. contradiction.
  - intros Hfew Hrange.
    rewrite (batch_update_status_accepted limit db ids caller status Hfew Hrange).
    simpl. split; [reflexivity |]. split.
    + intros i n Hi Hin Hown. rewrite lookup_map_row, Hi. simpl.
      unfold selected. apply in_spec in Hin. rewrite Hin.
      apply Z.eqb_eq in Hown. now rewrite Hown.
    + intros Hforeign. split.
      * rewrite filter_none_length; [reflexivity |].
        intros n Hn. unfold selected.
        destruct (in_ ids (NotificationRow.id n)) eqn:Hin; [| reflexivity].
        apply in_spec in Hin. simpl. apply Z.eqb_neq. now apply Hforeign.
      * rewrite <- (map_id db) at 2. apply map_ext_in.
        intros n Hn. unfold selected.
        destruct (in_ ids (NotificationRow.id n)) eqn:Hin; [| reflexivity].
        apply in_spec in Hin. simpl.
        apply (Hforeign n Hn) in Hin. apply Z.eqb_neq in Hin. now rewrite Hin.
  - intros Hmany. unfold batch_update_status.
    apply Nat.ltb_lt in Hmany. now rewrite Hmany.
  - intros Hfew (i & Hi & Hout). unfold batch_update_status.
    replace (limit <? 2 + length ids)%nat with false
      by (symmetry; apply Nat.ltb_ge; exact Hfew).
    destruct (forallb sqlite_integer ids && sqlite_integer caller) eqn:Htaken;
      [| reflexivity].
    pose proof (proj1 (parameters_taken ids caller) Htaken i Hi). lia.
  - now intros [].
  - now intros [].
Qed.

End BatchUpdate.

(** ** Password authentication *)

Section Authenticate.

Context `{Security}.

Implicit Types (us : list User) (identifier password : string).

Lemma col_eqb_eq (column : option string) (value : string) :
  col_eqb column value = true <-> column = Some value.
Proof.
  destruct column as [c|]; simpl.
  - rewrite String.eqb_eq. split; congruence.
  - split; discriminate.
Qed.

Lemma matches_identifier_spec identifier (u : User) :
  matches_identifier identifier u = true <->
  username u = identifier \/ email u = Some identifier.
Proof.
  unfold matches_identifier.
  rewrite orb_true_iff, String.eqb_eq, col_eqb_eq. reflexivity.
Qed.

Lemma find_none_iff {A} (p : A -> bool) (l : list A) :
  find p l = None <-> forall x, In x l -> p x = false.
Proof.
  split; [apply find_none |].
  induction l as [|x l IH]; intros Hall; simpl; [reflexivity |].
  rewrite (Hall x (or_introl eq_refl)). apply IH.
  intros y Hy. apply Hall. now right.
Qed.

Lemma first_by_username_or_email_none us identifier :
  first_by_username_or_email us identifier = None <->
  forall u, In u us -> username u <> identifier /\ email u <> Some identifier.
Proof.
  unfold first_by_username_or_email, get_by_username, get_by_email. split.
  - intros Hnone u Hu.
    destruct (find (fun u => String.eqb (username u) identifier) us) eqn:Hname;
      [discriminate |].
    rewrite find_none_iff in Hname. rewrite find_none_iff in Hnone.
    specialize (Hname u Hu). specialize (Hnone u Hu). simpl in *.
    apply String.eqb_neq in Hname. split; [exact Hname |].
    intros Haddr. apply col_eqb_eq in Haddr. congruence.
  - intros Hall.
    replace (find (fun u => String.eqb (username u) identifier) us)
      with (@None User).
    + apply find_none_iff. intros u Hu.
      destruct (col_eqb (email u) identifier) eqn:Haddr; [| reflexivity].
      apply col_eqb_eq in Haddr. now destruct (Hall u Hu).
    + symmetry. apply find_none_iff. intros u Hu.
      apply String.eqb_neq. now destruct (Hall u Hu).
Qed.

Lemma first_by_username_or_email_some us identifier (user : User) :
  first_by_username_or_email us identifier = Some user ->
  In user us /\
  (username user = identifier \/
   email user = Some identifier /\
   forall u, In u us -> username u <> identifier).
Proof.
  unfold first_by_username_or_email, get_by_username, get_by_email.
  destruct (find (fun u => String.eqb (username u) identifier) us)
    as [named|] eqn:Hname.
  - intros [= <-]. apply find_some in Hname as [Hin Heq].
    split; [exact Hin |]. left. now apply String.eqb_eq.
  - intros Haddr. apply find_some in Haddr as [Hin Heq].
    split; [exact Hin |]. right. split; [now apply col_eqb_eq |].
    intros u Hu. rewrite find_none_iff in Hname.
    apply String.eqb_neq. exact (Hname u Hu).
Qed.

(** The row the query yields is a row of its filter, and it yields
    none only when the filter lets no row through. *)
Lemma first_by_username_or_email_filter us identifier :
  match first_by_username_or_email us identifier with
  | Some user => In user (List.filter (matches_identifier identifier) us)
  | None => List.filter (matches_identifier identifier) us = []
  end.
Proof.
  destruct (first_by_username_or_email us identifier) as [user|] eqn:Hfound.
  - apply first_by_username_or_email_some in Hfound as [Hin Hmatch].
    apply filter_In. split; [exact Hin |].
    apply matches_identifier_spec. tauto.
  - rewrite first_by_username_or_email_none in Hfound.
    apply length_zero_iff_nil, filter_none_length. intros u Hu.
    destruct (matches_identifier identifier u) eqn:Hm; [| reflexivity].
    apply matches_identifier_spec in Hm. destruct (Hfound u Hu). tauto.
Qed.

(** C7. [authenticate] returns [None] when no row has the identifier as
    its username or as its e-mail address.  When some row has, the
    query yields one of them, the row with that username if there is
    one, else the row with that e-mail address.  [authenticate] returns
    [None] when the row the query yields has a hash the password does
    not verify against, and in particular when that row has no password
    hash (an account created through OAuth); it returns that row when
    the password verifies against its hash; and whenever it returns an
    account, that account is the row the query yields, a row matching
    the identifier whose stored hash the password verifies against. *)
Theorem authenticate_only_on_hash_match us identifier password :
  let found := first_by_username_or_email us identifier in
  ((forall u, In u us -> username u <> identifier /\ email u <> Some identifier) ->
   authenticate us identifier password = None) /\
  (forall u, In u us -> username u = identifier \/ email u = Some identifier ->
             exists user, found = Some user) /\
  (forall u, In u us -> username u = identifier ->
             exists user, found = Some user /\ username user = identifier) /\
  (forall user, found = Some user ->
                verify_password password (hashed_password user) = false ->
                authenticate us identifier password = None) /\
  (forall user, found = Some user ->
                hashed_password user = None ->
                authenticate us identifier password = None) /\
  (forall user h, found = Some user ->
                  hashed_password user = Some h ->
                  verify_hash password h = true ->
                  authenticate us identifier password = Some user) /\
  (forall user, authenticate us identifier password = Some user ->
                found = Some user /\
                In user us /\
                (username user = identifier \/ email user = Some identifier) /\
                exists h, hashed_password user = Some h /\
                          verify_hash password h = true).
Proof.
  cbv zeta. split; [| split; [| split; [| split; [| split; [| split]]]]].
  - intros Hnone. unfold authenticate.
    apply first_by_username_or_email_none in Hnone. now rewrite Hnone.
  - intros u Hu Hmatch.
    destruct (first_by_username_or_email us identifier) as [user|] eqn:Hfound;
      [now exists user |].
    rewrite first_by_username_or_email_none in Hfound.
    destruct (Hfound u Hu). tauto.
  - intros u Hu Hname.
    destruct (first_by_username_or_email us identifier) as [user|] eqn:Hfound.
    + exists user. split; [reflexivity |].
      apply first_by_username_or_email_some in Hfound
        as [_ [Hsame | [_ Hnobody]]]; [exact Hsame |].
      now destruct (Hnobody u Hu).
    + rewrite first_by_username_or_email_none in Hfound.
      now destruct (Hfound u Hu).
  - intros user Hfound Hverify. unfold authenticate.
    now rewrite Hfound, Hverify.
  - intros user Hfound Hhash. unfold authenticate.
    now rewrite Hfound, Hhash.
  - intros user h Hfound Hhash Hverify. unfold authenticate.
    rewrite Hfound, Hhash. simpl. now rewrite Hverify.
  - intros user. unfold authenticate.
    destruct (first_by_username_or_email us identifier) as [found|] eqn:Hfound;
      [| discriminate].
    destruct (verify_password password (hashed_password found)) eqn:Hverify;
      simpl; [| discriminate].
    intros [= <-]. split; [reflexivity |].
    apply first_by_username_or_email_some in Hfound as [Hin Hmatch].
    split; [exact Hin |]. split; [tauto |].
    unfold verify_password in Hverify.
    destruct (hashed_password found) as [h|]; [| discriminate].
    now exists h.
Qed.

End Authenticate.

(** ** Linking an OAuth identity *)

Section LinkOAuth.

Lemma update_row_other (obj : User) (us : list User) (i : nat) (row : User) :
  us !! i = Some row -> id row <> id obj -> update_row obj us !! i = Some row.
Proof.
  intros Hi Hne. unfold update_row. rewrite lookup_map_row, Hi. simpl.
  apply Z.eqb_neq in Hne. now rewrite Hne.
Qed.

Lemma update_row_same (obj : User) (us : list User) (i : nat) (row : User) :
  us !! i = Some row -> id row = id obj -> update_row obj us !! i = Some obj.
Proof.
  intros Hi He. unfold update_row. rewrite lookup_map_row, Hi. simpl.
  apply Z.eqb_eq in He. now rewrite He.
Qed.

(** C6. [link_oauth_account] returns the account with the provider, the
    provider id, the e-mail-verified flag and [updated_at] assigned and
    every other field as before; in the table the rows of other
    accounts are untouched and the row of the account becomes the
    account returned. *)
Theorem link_oauth_account_frame (w : World) (user : User) (oauth_info : OAuthInfo.t) :
  exists linked w',
    link_oauth_account user oauth_info w = (Returned linked, w') /\
    (oauth_provider linked = Some (OAuthInfo.provider oauth_info) /\
     oauth_provider_id linked = Some (OAuthInfo.provider_id oauth_info) /\
     oauth_email_verified linked = OAuthInfo.email_verified oauth_info /\
     updated_at linked = Some (clock w (ticks w))) /\
    (id linked = id user /\
     username linked = username user /\
     email linked = email user /\
     hashed_password linked = hashed_password user /\
     user_type linked = user_type user /\
     status linked = status user /\
     device_id linked = device_id user /\
     user_agent linked = user_agent user /\
     ip_address linked = ip_address user /\
     trial_start_date linked = trial_start_date user /\
     trial_end_date linked = trial_end_date user /\
     subscription_start_date linked = subscription_start_date user /\
     subscription_end_date linked = subscription_end_date user /\
     max_follows linked = max_follows user /\
     current_follows linked = current_follows user /\
     email_notifications linked = email_notifications user /\
     sms_notifications linked = sms_notifications user /\
     push_notifications linked = push_notifications user /\
     created_at linked = created_at user /\
     last_login_at linked = last_login_at user) /\
    length (users w') = length (users w) /\
    (forall i row, users w !! i = Some row -> id row <> id user ->
                   users w' !! i = Some row) /\
    (forall i row, users w !! i = Some row -> id row = id user ->
                   users w' !! i = Some linked) /\
    redis w' = redis w.
Proof.
  eexists. eexists. split; [reflexivity |].
  split; [repeat split |]. split; [repeat split |].
  split; [apply length_map |].
  split; [| split; [| reflexivity]].
  - intros i row Hi Hne. simpl. eapply update_row_other; [exact Hi | exact Hne].
  - intros i row Hi He. simpl. eapply update_row_same; [exact Hi | exact He].
Qed.

End LinkOAuth.

(** ** E-mail verification codes *)

Section VerificationCode.

Import EmailService.

Implicit Types (w : World) (email code given : string).

(** What a successful [store_verification_code] leaves in Redis. *)
Lemma store_verification_code_entry w w1 email code (expires_in : Z) :
  store_verification_code email code expires_in w = (Returned true, w1) ->
  redis w1 !! key_of email =
    Some (mkEntry code
            (clock w (ticks w))
            (clock w (S (ticks w)) + seconds expires_in)
            (clock w (S (S (ticks w))) + seconds expires_in)).
Proof.
  unfold store_verification_code, try_except, bind, utcnow, redis_setex, ret.
  simpl.
  destruct (redis_up w); simpl; [| discriminate].
  destruct (expires_in <=? 0); simpl; [discriminate |].
  intros [= <-]. simpl. apply lookup_insert_eq.
Qed.

(** [verify_code] always returns a boolean: every failure inside is
    caught. *)
Lemma verify_code_returns w email given :
  exists (b : bool) w', verify_code email given w = (Returned b, w').
Proof.
  unfold verify_code, try_except, bind, redis_get, redis_delete, utcnow, ret.
  destruct (redis_up w) eqn:Hup; simpl; [| eauto].
  destruct (redis w !! key_of email) as [entry|]; simpl; [| eauto].
  destruct (clock w (ticks w) <? entry_ttl_deadline entry); simpl; [| eauto].
  destruct (String.eqb (entry_code entry) given); simpl; [| eauto].
  destruct (clock w (S (ticks w)) <=? entry_expires_at entry); simpl; [| eauto].
  rewrite Hup. simpl. eauto.
Qed.

(** When [verify_code] says yes: the key was there and alive, the code
    matched, the clock had not passed [expires_at]; and the key is
    deleted. *)
Lemma verify_code_true_inv w w' email given :
  verify_code email given w = (Returned true, w') ->
  (exists entry,
     redis w !! key_of email = Some entry /\
     clock w (ticks w) < entry_ttl_deadline entry /\
     entry_code entry = given /\
     clock w (S (ticks w)) <= entry_expires_at entry) /\
  redis w' = delete (key_of email) (redis w).
Proof.
  unfold verify_code, try_except, bind, redis_get, redis_delete, utcnow, ret.
  destruct (redis_up w) eqn:Hup; simpl; [| discriminate].
  destruct (redis w !! key_of email) as [entry|]; simpl; [| discriminate].
  destruct (clock w (ticks w) <? entry_ttl_deadline entry) eqn:Httl; simpl;
    [| discriminate].
  destruct (String.eqb (entry_code entry) given) eqn:Hcode; simpl;
    [| discriminate].
  destruct (clock w (S (ticks w)) <=? entry_expires_at entry) eqn:Hexp; simpl;
    [| discriminate].
  rewrite Hup. simpl. intros [= <-]. simpl.
  split; [| reflexivity].
  exists entry. apply Z.ltb_lt in Httl. apply String.eqb_eq in Hcode.
  apply Z.leb_le in Hexp. auto.
Qed.

Lemma verify_code_absent w email given :
  redis w !! key_of email = None ->
  fst (verify_code email given w) = Returned false.
Proof.
  intros Habsent.
  unfold verify_code, try_except, bind, redis_get, ret.
  destruct (redis_up w); simpl; [| reflexivity].
  now rewrite Habsent.
Qed.

(** With Redis up, [store_verification_code] stores the code and says
    so. *)
Lemma store_verification_code_succeeds w email code (expires_in : Z) :
  redis_up w = true -> 0 < expires_in ->
  fst (store_verification_code email code expires_in w) = Returned true.
Proof.
  intros Hup Hpos.
  unfold store_verification_code, try_except, bind, utcnow, redis_setex, ret.
  simpl. rewrite Hup. simpl.
  destruct (expires_in <=? 0) eqn:Hle; [apply Z.leb_le in Hle; lia |].
  reflexivity.
Qed.

(** When [verify_code] says yes, stated the other way round. *)
Lemma verify_code_accepts w email given (entry : VerificationEntry) :
  redis_up w = true ->
  redis w !! key_of email = Some entry ->
  clock w (ticks w) < entry_ttl_deadline entry ->
  entry_code entry = given ->
  clock w (S (ticks w)) <= entry_expires_at entry ->
  fst (verify_code email given w) = Returned true.
Proof.
  intros Hup Hentry Httl Hcode Hexp.
  unfold verify_code, try_except, bind, redis_get, redis_delete, utcnow, ret.
  rewrite Hup. simpl. rewrite Hentry.
  apply Z.ltb_lt in Httl. rewrite Httl. simpl.
  apply String.eqb_eq in Hcode. rewrite Hcode. simpl.
  apply Z.leb_le in Hexp. rewrite Hexp. simpl. now rewrite Hup.
Qed.

(** C8. With Redis up, [store_verification_code] with the 300-second
    expiry stores the code.  From then on: (1) the code is accepted
    while the key is alive and the clock reading that [verify_code]
    compares with [expires_at] is at most 300 seconds after the reading
    [expires_at] was counted from; (2) a verification is refused once
    that reading is more than 300 seconds after the code was issued,
    [issued] being the instant [expires_at] was counted from or any
    later one; (3) after a verification has succeeded the key is gone,
    so that every further verification for that address fails,
    whatever code is given. *)
Theorem verification_code_expires_and_is_single_use w email code :
  redis_up w = true ->
  let issue := store_verification_code email code default_expires_in w in
  let w1 := snd issue in
  fst issue = Returned true /\
  (forall w2,
     redis w2 !! key_of email = redis w1 !! key_of email ->
     redis_up w2 = true ->
     clock w2 (ticks w2) < clock w (2 + ticks w) + seconds 300 ->
     clock w2 (S (ticks w2)) <= clock w (S (ticks w)) + seconds 300 ->
     fst (verify_code email code w2) = Returned true) /\
  (forall w2 (issued : datetime) given,
     redis w2 !! key_of email = redis w1 !! key_of email ->
     clock w (S (ticks w)) <= issued ->
     issued + seconds 300 < clock w2 (S (ticks w2)) ->
     fst (verify_code email given w2) = Returned false) /\
  (forall w2 w3 given,
     redis w2 !! key_of email = redis w1 !! key_of email ->
     verify_code email given w2 = (Returned true, w3) ->
     given = code /\
     redis w3 !! key_of email = None /\
     forall w4 again,
       redis w4 !! key_of email = redis w3 !! key_of email ->
       fst (verify_code email again w4) = Returned false).
Proof.
  intros Hup. cbv zeta.
  pose proof (store_verification_code_succeeds w email code default_expires_in
                Hup eq_refl) as Hok.
  destruct (store_verification_code email code default_expires_in w)
    as [stored w1] eqn:Hrun.
  simpl in Hok. subst stored. simpl.
  pose proof (store_verification_code_entry _ _ _ _ _ Hrun) as Hstore.
  split; [reflexivity |]. split; [| split].
  - intros w2 Hsame Hup2 Httl Hexp.
    rewrite Hstore in Hsame.
    now apply (verify_code_accepts w2 email code _ Hup2 Hsame).
  - intros w2 issued given Hsame Hissued Hlate.
    destruct (verify_code_returns w2 email given) as (b & w' & Hverify).
    rewrite Hverify. simpl. destruct b; [| reflexivity].
    apply verify_code_true_inv in Hverify as [(entry & Hentry & _ & _ & Hexp) _].
    rewrite Hsame, Hstore in Hentry. injection Hentry as <-.
    simpl in Hexp. unfold default_expires_in in Hexp. lia.
  - intros w2 w3 given Hsame Hverify.
    apply verify_code_true_inv in Hverify
      as [(entry & Hentry & _ & Hcode & _) Hdel].
    rewrite Hsame, Hstore in Hentry. injection Hentry as <-.
    assert (Hgone : redis w3 !! key_of email = None).
    { rewrite Hdel. apply lookup_delete_eq. }
    split; [now symmetry |]. split; [exact Hgone |].
    intros w4 again Hsame4. apply verify_code_absent.
    now rewrite Hsame4.
Qed.

End VerificationCode.

(** ** Device auto-registration *)

Section AutoRegister.

Context `{Security} (settings : Settings).

Lemma settings_refresh_minutes_missing :
  settings_int settings "REFRESH_TOKEN_EXPIRE_MINUTES" = Raised AttributeError.
Proof. reflexivity. Qed.

(** [auto_register_user] never returns and never writes table [users]:
    for a device that has a row it stops at the undeclared setting, for
    a new device at the attribute read on the dictionary handed to
    [create_user]. *)
Lemma auto_register_user_never_returns (body : AutoRegister.t)
    (client_host : option string) (w : World) :
  (exists e, fst (auto_register_user settings body client_host w) = Raised e \/
             fst (auto_register_user settings body client_host w) = Exhausted) /\
  users (snd (auto_register_user settings body client_host w)) = users w.
Proof.
  unfold auto_register_user.
  destruct (AutoRegister.device_id body) as [device|]; simpl;
    [| split; [exists (HTTPException 400); now left | reflexivity]].
  destruct (String.eqb device ""); simpl;
    [split; [exists (HTTPException 400); now left | reflexivity] |].
  unfold bind, db_query, lift, raise, create_user, generate_unique_username,
    generate_random_password, random_choices. simpl.
  destruct (get_by_device_id (users w) device) as [user|]; simpl;
    [split; [exists AttributeError; now left | reflexivity] |].
  destruct (first_free_username (users w) (rng w)) as [[name rest]|]; simpl;
    [| split; [exists AttributeError; now right | reflexivity]].
  destruct rest as [|pw rest]; simpl;
    [split; [exists AttributeError; now right | reflexivity] |].
  split; [exists AttributeError; now left | reflexivity].
Qed.

End AutoRegister.

(** C4. Auto-registration of a device on an empty database, twice in a
    row: both calls end in [AttributeError], no account id is returned
    either time, and table [users] is still empty.  On a database that
    has a row for the device the call ends in [AttributeError] as well
    and the table is as before. *)
Theorem auto_register_user_twice_raises :
  let first := auto_register_user (H := Sample.security) default_settings
                 Sample.phone (Some "203.0.113.7") Sample.fresh in
  let second := auto_register_user (H := Sample.security) default_settings
                  Sample.phone (Some "203.0.113.7") (snd first) in
  let known := auto_register_user (H := Sample.security) default_settings
                 Sample.phone (Some "203.0.113.7") Sample.seeded in
  fst first = Raised AttributeError /\
  users (snd first) = [] /\
  fst second = Raised AttributeError /\
  users (snd second) = [] /\
  get_by_device_id (users Sample.seeded) "device_12345678" = Some Sample.auto_user /\
  fst known = Raised AttributeError /\
  users (snd known) = users Sample.seeded.
Proof. vm_compute. repeat split. Qed.

(** ** Running the monad *)

Section Running.

Lemma bind_returned {A B} (c : M A) (k : A -> M B) (w w' : World) (a : A) :
  c w = (Returned a, w') -> bind c k w = k a w'.
Proof. intros Hc. unfold bind. now rewrite Hc. Qed.

Lemma bind_raised {A B} (c : M A) (k : A -> M B) (w w' : World) (e : exn) :
  c w = (Raised e, w') -> bind c k w = (Raised e, w').
Proof. intros Hc. unfold bind. now rewrite Hc. Qed.

Lemma bind_db_query {A B} (q : list User -> A) (k : A -> M B) (w : World) :
  bind (db_query q) k w = k (q (users w)) w.
Proof. reflexivity. Qed.

Lemma bind_lift_returned {A B} (a : A) (k : A -> M B) (w : World) :
  bind (lift (Returned a)) k w = k a w.
Proof. reflexivity. Qed.

End Running.

(** ** Table [users] *)

Section UsersTable.

Implicit Types (us : list User) (u v row : User).

Lemma id_below_next us u : In u us -> id u < next_id us.
Proof.
  unfold next_id. induction us as [|v us IH]; simpl; [tauto |].
  intros [-> | Hin]; [lia |]. specialize (IH Hin). lia.
Qed.

Lemma get_fresh us : get us (next_id us) = None.
Proof.
  unfold get. apply find_none_iff. intros u Hu.
  apply Z.eqb_neq. pose proof (id_below_next us u Hu). lia.
Qed.

Lemma find_app_none {A} (p : A -> bool) (l : list A) (x : A) :
  find p l = None -> p x = true -> find p (l ++ [x]) = Some x.
Proof.
  induction l as [|y l IH]; simpl; intros Hnone Hx.
  - now rewrite Hx.
  - destruct (p y); [discriminate | now apply IH].
Qed.

Lemma find_app_some {A} (p : A -> bool) (l l' : list A) (x : A) :
  find p l = Some x -> find p (l ++ l') = Some x.
Proof.
  induction l as [|y l IH]; simpl; [discriminate |].
  destruct (p y); [trivial | apply IH].
Qed.

Lemma get_inserted us row :
  id row = next_id us -> get (us ++ [row]) (id row) = Some row.
Proof.
  intros Hid. unfold get. apply find_app_none.
  - rewrite Hid. apply get_fresh.
  - apply Z.eqb_refl.
Qed.

Lemma update_row_fresh us obj :
  (forall v, In v us -> id v <> id obj) -> update_row obj us = us.
Proof.
  intros Hfresh. unfold update_row.
  rewrite <- (map_id us) at 2. apply map_ext_in.
  intros v Hv. apply Hfresh in Hv. apply Z.eqb_neq in Hv. now rewrite Hv.
Qed.

Lemma update_row_inserted us row obj :
  id row = next_id us -> id obj = id row ->
  update_row obj (us ++ [row]) = us ++ [obj].
Proof.
  intros Hid Hobj. unfold update_row. rewrite map_app. simpl.
  rewrite <- Hobj, Z.eqb_refl. f_equal.
  apply update_row_fresh. intros v Hv.
  pose proof (id_below_next us v Hv). lia.
Qed.




(** The constraints hold for a row whose username and e-mail address
    no row carries and that names no device. *)
Lemma integrity_ok_unused us row (address : string) :
  email row = Some address -> device_id row = None ->
  get_by_username us (username row) = None ->
  get_by_email us address = None ->
  integrity_ok us row = true.
Proof.
  intros Hemail Hdevice Hname Haddr. unfold integrity_ok.
  rewrite Hemail, Hdevice. simpl. apply forallb_forall. intros v Hv.
  unfold get_by_username in Hname. unfold get_by_email in Haddr.
  rewrite find_none_iff in Hname. rewrite find_none_iff in Haddr.
  rewrite (Hname v Hv). specialize (Haddr v Hv). simpl.
  destruct (email v) as [e|], (device_id v); simpl in *; now rewrite ?Haddr.
Qed.

End UsersTable.

(** The constraint check of the insert in the goal passes: the row has
    the e-mail address [address], and [Hname], [Haddr] say that its
    username and that address are unused. *)
Ltac insert_passes address Hname Haddr :=
  match goal with
  | |- context [integrity_ok ?us ?r] =>
      rewrite (integrity_ok_unused us r address);
      [| reflexivity | reflexivity | exact Hname | exact Haddr]
  end.

(** ** Password registration *)

Section Registration.

Context `{Security} (settings : Settings).

Import EmailService.

Lemma verify_code_true_state (w w' : World) (email given : string) :
  verify_code email given w = (Returned true, w') ->
  users w' = users w /\ clock w' = clock w /\ ticks w' = S (S (ticks w)).
Proof.
  unfold verify_code, try_except, bind, redis_get, redis_delete, utcnow, ret.
  destruct (redis_up w) eqn:Hup; simpl; [| discriminate].
  destruct (redis w !! key_of email) as [entry|]; simpl; [| discriminate].
  destruct (clock w (ticks w) <? entry_ttl_deadline entry); simpl;
    [| discriminate].
  destruct (String.eqb (entry_code entry) given); simpl; [| discriminate].
  destruct (clock w (S (ticks w)) <=? entry_expires_at entry); simpl;
    [| discriminate].
  rewrite Hup. simpl. intros [= <-]. auto.
Qed.

(** [create_user] on a request body whose username and e-mail address
    are unused: the row it stores and returns. *)
Lemma create_user_stores (body : UserRegister.t) (w : World) :
  get_by_username (users w) (UserRegister.username body) = None ->
  get_by_email (users w) (UserRegister.email body) = None ->
  exists row,
    create_user settings (BodyUserRegister body) w =
      (Returned row,
       mkWorld (users w ++ [row]) (redis w) (redis_up w) (clock w)
         (5 + ticks w) (rng w)) /\
    id row = next_id (users w) /\
    username row = UserRegister.username body /\
    email row = Some (UserRegister.email body) /\
    hashed_password row = Some (get_password_hash (UserRegister.password body)) /\
    user_type row = TRIAL /\
    max_follows row = TRIAL_MAX_FOLLOWS settings /\
    trial_end_date row =
      Some (clock w (1 + ticks w) + days (TRIAL_PERIOD_DAYS settings)) /\
    created_at row = Some (clock w (2 + ticks w)).
Proof.
  intros Hname Haddr.
  unfold create_user, db_insert, bind, lift, utcnow. simpl.
  insert_passes (UserRegister.email body) Hname Haddr.
  eexists. split; [reflexivity |]. repeat split.
Qed.

(** [set_trial_period] on the id of a stored row. *)
Lemma set_trial_period_grants (user_id days' : Z) (user : User) (w : World) :
  get (users w) user_id = Some user ->
  exists granted,
    set_trial_period settings user_id days' w =
      (Returned (Some granted),
       mkWorld (update_row granted (users w)) (redis w) (redis_up w) (clock w)
         (3 + ticks w) (rng w)) /\
    granted =
      with_updated_at (Some (clock w (2 + ticks w)))
        (with_trial (Some (clock w (ticks w)))
           (Some (clock w (1 + ticks w) + days days'))
           TRIAL (TRIAL_MAX_FOLLOWS settings) user).
Proof.
  intros Hget.
  unfold set_trial_period, db_update_stamped, db_update, bind, db_query, lift,
    utcnow, ret. simpl.
  rewrite Hget. simpl. eexists. split; reflexivity.
Qed.

(** C2 (as amended). After a password registration with a valid
    verification code and an unused e-mail address and username, table
    [users] has one more row, the account: its tier is trial, its
    follow limit the configured trial limit, and its [trial_end_date]
    is the configured trial period after [granted], the clock reading
    [set_trial_period] took; [created_at] is [created], an earlier
    reading, so the trial ends no sooner than the period after
    [created_at] when the clock does not run backwards. *)
Theorem register_user_grants_trial (user_in : UserRegister.t) (w w1 : World) :
  verify_code (UserRegister.email user_in)
    (UserRegister.verification_code user_in) w = (Returned true, w1) ->
  get_by_email (users w) (UserRegister.email user_in) = None ->
  get_by_username (users w) (UserRegister.username user_in) = None ->
  exists (account : User) (created granted : datetime),
    users (snd (register_user settings user_in w)) = users w ++ [account] /\
    username account = UserRegister.username user_in /\
    email account = Some (UserRegister.email user_in) /\
    user_type account = TRIAL /\
    max_follows account = TRIAL_MAX_FOLLOWS settings /\
    created_at account = Some created /\
    trial_end_date account = Some (granted + days (TRIAL_PERIOD_DAYS settings)) /\
    created = clock w (4 + ticks w) /\
    granted = clock w (8 + ticks w) /\
    (monotone_clock w ->
     created + days (TRIAL_PERIOD_DAYS settings) <=
     granted + days (TRIAL_PERIOD_DAYS settings)).
Proof.
  intros Hcode Haddr Hname.
  destruct (verify_code_true_state _ _ _ _ Hcode) as (Husers & Hclock & Hticks).
  rewrite <- Husers in Haddr, Hname.
  destruct (create_user_stores user_in w1 Hname Haddr)
    as (row & Hcreate & Hid & Hrname & Hremail & _ & _ & _ & _ & Hcreated).
  set (w2 := mkWorld (users w1 ++ [row]) (redis w1) (redis_up w1) (clock w1)
               (5 + ticks w1) (rng w1)) in *.
  assert (Hget : get (users w2) (id row) = Some row)
    by (apply get_inserted; exact Hid).
  destruct (set_trial_period_grants (id row) (TRIAL_PERIOD_DAYS settings) row w2 Hget)
    as (granted & Hgrant & Hgranted).
  exists granted, (clock w (4 + ticks w)), (clock w (8 + ticks w)).
  split.
  - unfold register_user.
    rewrite (bind_returned _ _ _ _ _ Hcode). simpl.
    rewrite bind_db_query, Haddr. simpl.
    rewrite bind_db_query, Hname. simpl.
    rewrite (bind_returned _ _ _ _ _ Hcreate).
    change (settings_int settings "TRIAL_PERIOD_DAYS")
      with (Returned (TRIAL_PERIOD_DAYS settings)).
    rewrite bind_lift_returned.
    rewrite (bind_returned _ _ _ _ _ Hgrant).
    unfold bind, lift. simpl.
    rewrite <- Husers. apply update_row_inserted; [exact Hid |].
    rewrite Hgranted. reflexivity.
  - rewrite Hgranted. simpl. rewrite Hrname, Hremail, Hcreated.
    rewrite Hclock, Hticks.
    repeat split.
    intros Hmono. apply Z.add_le_mono_r. apply Hmono. lia.
Qed.

End Registration.

(** ** OAuth resolution *)

Section OAuthResolution.

Context `{Security} (settings : Settings).

Implicit Types (us : list User) (info : OAuthInfo.t) (w : World).

Lemma first_free_username_free us (draws rest : list string) (name : string) :
  first_free_username us draws = Some (name, rest) ->
  get_by_username us name = None.
Proof.
  induction draws as [|draw draws IH]; simpl; [discriminate |].
  destruct (get_by_username us ("user_" ++ draw)%string) eqn:Hfree.
  - apply IH.
  - now intros [= <- _].
Qed.

Lemma find_update_row_found (p : User -> bool) us (x x' : User) :
  distinct_ids us -> find p us = Some x -> id x' = id x -> p x' = true ->
  find p (update_row x' us) = Some x'.
Proof.
  unfold distinct_ids, update_row.
  induction us as [|v us IH]; simpl; [discriminate |].
  intros Hnd Hfind Hid Hp. apply NoDup_cons in Hnd as [Hv Hnd].
  destruct (p v) eqn:Hpv.
  - injection Hfind as ->. rewrite Hid, Z.eqb_refl. now rewrite Hp.
  - destruct (id v =? id x') eqn:He.
    + exfalso. apply Z.eqb_eq in He. apply Hv. rewrite He, Hid.
      apply list_elem_of_In, in_map. now apply find_some in Hfind.
    + rewrite Hpv. now apply IH.
Qed.

Lemma find_update_row_linked (p : User -> bool) us (a x' : User) :
  find p us = None -> In a us -> id x' = id a -> p x' = true ->
  find p (update_row x' us) = Some x'.
Proof.
  unfold update_row.
  induction us as [|v us IH]; simpl; [tauto |].
  intros Hfind Hin Hid Hp.
  destruct (p v) eqn:Hpv; [discriminate |].
  destruct (id v =? id x') eqn:He; [now rewrite Hp |].
  rewrite Hpv. apply IH; try assumption.
  destruct Hin as [-> | Hin]; [| exact Hin].
  rewrite Hid, Z.eqb_refl in He. discriminate.
Qed.


Lemma update_row_member us obj (a : User) :
  In a us -> id obj = id a -> In obj (update_row obj us).
Proof.
  intros Hin Hid. unfold update_row. apply in_map_iff.
  exists a. rewrite <- Hid, Z.eqb_refl. auto.
Qed.



(** Enough draws: if some recorded draw gives an unused username, the
    loop of [generate_unique_username] ends. *)
Lemma first_free_username_finds us (draws : list string) (draw : string) :
  In draw draws ->
  get_by_username us ("user_" ++ draw)%string = None ->
  exists name rest, first_free_username us draws = Some (name, rest).
Proof.
  induction draws as [|d draws IH]; simpl; [tauto |].
  intros Hin Hfree.
  destruct (get_by_username us ("user_" ++ d)%string) eqn:Hd; [| eauto].
  destruct Hin as [-> | Hin]; [congruence | now apply IH].
Qed.



Lemma has_identity_refl (provider provider_id : string) (u : User) :
  oauth_provider u = Some provider -> oauth_provider_id u = Some provider_id ->
  has_identity provider provider_id u = true.
Proof.
  intros Hp Hi. unfold has_identity. rewrite Hp, Hi. simpl.
  now rewrite !String.eqb_refl.
Qed.



End OAuthResolution.

(** ** The token envelope *)

Section TokenEnvelope.

Context `{Security} (settings : Settings).

Lemma bind_never_returns {A B} (c : M A) (k : A -> M B) (w : World) :
  (forall a w', ~ returns (k a w')) -> ~ returns (bind c k w).
Proof.
  intros Hk. unfold bind. destruct (c w) as [[a| e |] w'].
  - apply Hk.
  - intros [b Hb]. discriminate.
  - intros [b Hb]. discriminate.
Qed.

Lemma raise_never_returns {A} (e : exn) (w : World) : ~ returns (@raise A e w).
Proof. intros [a Ha]. discriminate. Qed.

(** Every endpoint computes [timedelta(minutes=
    settings.REFRESH_TOKEN_EXPIRE_MINUTES)] before it builds its
    response, and the settings declare no such field. *)
Lemma refresh_minutes_never_return {B} (k : Z -> M B) (w : World) :
  ~ returns (bind (lift (settings_int settings "REFRESH_TOKEN_EXPIRE_MINUTES")) k w).
Proof. intros [b Hb]. discriminate. Qed.

(** [register_user] stores the account and then raises: no call
    returns a response. *)
Lemma register_user_never_returns (user_in : UserRegister.t) (w : World) :
  ~ returns (register_user settings user_in w).
Proof.
  unfold register_user.
  apply bind_never_returns. intros verified w1.
  destruct verified; simpl; [| apply raise_never_returns].
  apply bind_never_returns. intros by_email w2.
  destruct by_email; simpl; [apply raise_never_returns |].
  apply bind_never_returns. intros by_name w3.
  destruct by_name; simpl; [apply raise_never_returns |].
  apply bind_never_returns. intros user w4.
  apply bind_never_returns. intros trial_days w5.
  apply bind_never_returns. intros granted w6.
  apply bind_never_returns. intros access_minutes w7.
  apply refresh_minutes_never_return.
Qed.

(** [google_oauth_login] resolves the account, with what that writes
    to the table, and then answers 500: no call returns a response. *)
Lemma google_oauth_login_never_returns (user_info : option OAuthInfo.t) (w : World) :
  ~ returns (google_oauth_login settings user_info w).
Proof.
  unfold google_oauth_login, try_except.
  match goal with
  | |- ~ returns (match ?c w with _ => _ end) =>
      assert (Hinner : ~ returns (c w)); [| destruct (c w) as [[r| e |] w']]
  end.
  - destruct user_info as [info|]; [| apply raise_never_returns].
    apply bind_never_returns. intros resolved w1.
    apply bind_never_returns. intros access_minutes w2.
    apply refresh_minutes_never_return.
  - exfalso. apply Hinner. now exists r.
  - apply raise_never_returns.
  - intros [a Ha]. discriminate.
Qed.

End TokenEnvelope.

(** ** Scenarios *)

Section Scenarios.

Import EmailService.

(** A lifetime member with no [subscription_end_date] is entitled. *)
Lemma entitlement_derivation_witness :
  user_type Sample.lifetime_member = LIFETIME /\
  subscription_end_date Sample.lifetime_member = None /\
  is_subscription_active Sample.lifetime_member 1700000000000000 = true.
Proof.
  split; [reflexivity |]. split; [reflexivity |].
  apply (proj1 (proj2 (entitlement_derivation Sample.lifetime_member
                         1700000000000000))).
  reflexivity.
Defined.

(** In the seeded table [carol] signs in with her password, the OAuth
    account of bob, which has no hash, is refused, and so is a name
    nobody has.  In the table of the two namesakes the identifier
    eve@x.com is answered by the account with that username, not by
    the earlier account with that address. *)
Lemma authenticate_only_on_hash_match_witness :
  authenticate (H := Sample.security) (users Sample.seeded) "carol" "secret" =
    Some Sample.lifetime_member /\
  authenticate (H := Sample.security) (users Sample.seeded) "carol" "pw123456" = None /\
  authenticate (H := Sample.security) (users Sample.seeded) "bob@x.com" "pw123456" = None /\
  authenticate (H := Sample.security) (users Sample.seeded) "nobody" "pw123456" = None /\
  authenticate (H := Sample.security) Sample.namesakes "eve@x.com" "second" =
    Some Sample.eve /\
  authenticate (H := Sample.security) Sample.namesakes "eve@x.com" "first" = None.
Proof.
  pose proof (authenticate_only_on_hash_match (H := Sample.security)
                (users Sample.seeded) "carol" "secret")
    as (_ & _ & _ & _ & _ & Haccepted & _).
  pose proof (authenticate_only_on_hash_match (H := Sample.security)
                (users Sample.seeded) "carol" "pw123456")
    as (_ & _ & _ & Hwrong & _).
  pose proof (authenticate_only_on_hash_match (H := Sample.security)
                (users Sample.seeded) "bob@x.com" "pw123456")
    as (_ & _ & _ & _ & Hnohash & _).
  pose proof (authenticate_only_on_hash_match (H := Sample.security)
                (users Sample.seeded) "nobody" "pw123456") as (Hunknown & _).
  pose proof (authenticate_only_on_hash_match (H := Sample.security)
                Sample.namesakes "eve@x.com" "second")
    as (_ & _ & _ & _ & _ & Hnamesake & _).
  pose proof (authenticate_only_on_hash_match (H := Sample.security)
                Sample.namesakes "eve@x.com" "first")
    as (_ & _ & _ & Hearlier & _).
  split; [| split; [| split; [| split; [| split]]]].
  - apply (Haccepted Sample.lifetime_member "hash:secret"); reflexivity.
  - apply (Hwrong Sample.lifetime_member); reflexivity.
  - apply (Hnohash Sample.oauth_bob); reflexivity.
  - apply Hunknown. intros u Hu. simpl in Hu.
    destruct Hu as [<- | [<- | [<- | []]]]; split; discriminate.
  - apply (Hnamesake Sample.eve "hash:second"); reflexivity.
  - apply (Hearlier Sample.eve); reflexivity.
Defined.

(** A code issued on the clock that advances by a minute per reading:
    it is refused eleven minutes later, accepted at once, and refused
    when presented a second time. *)
Lemma verification_code_witness :
  let w := Sample.fresh_coarse in
  let w1 := Sample.code_issued w in
  redis_up w = true /\
  fst (verify_code "alice@x.com" "123456" (set_ticks 10 w1)) = Returned false /\
  fst (verify_code "alice@x.com" "123456" w1) = Returned true /\
  fst (verify_code "alice@x.com" "123456"
         (snd (verify_code "alice@x.com" "123456" w1))) = Returned false.
Proof.
  cbv zeta.
  destruct (verification_code_expires_and_is_single_use Sample.fresh_coarse
              "alice@x.com" "123456" eq_refl)
    as (_ & Haccepted & Hexpired & Hsingle).
  split; [reflexivity |]. split; [| split].
  - apply (Hexpired (set_ticks 10 (Sample.code_issued Sample.fresh_coarse))
             (clock Sample.fresh_coarse 1) "123456");
      [reflexivity | apply Z.le_refl | vm_compute; reflexivity].
  - apply (Haccepted (Sample.code_issued Sample.fresh_coarse));
      [reflexivity | reflexivity | vm_compute; reflexivity
      | vm_compute; discriminate].
  - destruct (Hsingle (Sample.code_issued Sample.fresh_coarse)
                (snd (verify_code "alice@x.com" "123456"
                        (Sample.code_issued Sample.fresh_coarse)))
                "123456" eq_refl eq_refl) as (_ & _ & Hagain).
    apply Hagain. reflexivity.
Defined.


(** The registration of [alice] right after her code was issued, on
    the clock that advances by a microsecond per reading. *)
Lemma register_user_grants_trial_witness :
  exists (account : User) (created granted : datetime),
    users (snd (register_user (H := Sample.security) default_settings
                  Sample.alice (Sample.code_issued Sample.fresh))) = [account] /\
    username account = "alice" /\
    email account = Some "alice@x.com" /\
    user_type account = TRIAL /\
    max_follows account = 5 /\
    created_at account = Some created /\
    trial_end_date account = Some (granted + days 3) /\
    created = 1700000000000007 /\
    granted = 1700000000000011 /\
    (monotone_clock (Sample.code_issued Sample.fresh) ->
     created + days 3 <= granted + days 3).
Proof.
  exact (register_user_grants_trial (H := Sample.security) default_settings
           Sample.alice (Sample.code_issued Sample.fresh)
           (snd (verify_code "alice@x.com" "123456"
                   (Sample.code_issued Sample.fresh)))
           eq_refl eq_refl eq_refl).
Defined.

(** C2 (as stated) fails.  The same registration is valid, and the
    account it stores has a [trial_end_date] that is not [created_at]
    plus the trial period: the two come from different readings of the
    clock. *)
Lemma register_user_trial_end_not_created_plus_period :
  let w := Sample.code_issued Sample.fresh in
  let after := snd (register_user (H := Sample.security) default_settings
                      Sample.alice w) in
  fst (verify_code "alice@x.com" "123456" w) = Returned true /\
  get_by_email (users w) "alice@x.com" = None /\
  get_by_username (users w) "alice" = None /\
  exists account,
    users after = [account] /\
    user_type account = TRIAL /\
    max_follows account = TRIAL_MAX_FOLLOWS default_settings /\
    created_at account = Some 1700000000000007 /\
    trial_end_date account = Some 1700259200000011 /\
    1700259200000011 <> 1700000000000007 + days (TRIAL_PERIOD_DAYS default_settings).
Proof.
  cbv zeta. split; [vm_compute; reflexivity |].
  split; [reflexivity |]. split; [reflexivity |].
  eexists. split; [vm_compute; reflexivity |].
  repeat split. vm_compute. discriminate.
Qed.

(** The endpoint's call for account 1 with both stored notifications
    listed: the notification of account 2 is passed over, the one of
    account 1 gets the text "read", and 1 is returned. *)
Lemma batch_update_status_owner_only_witness :
  let result :=
    CRUDNotification.batch_update_status Sample.sqlite_max_variable_number
      Sample.inbox [1; 2] 1 (CRUDNotification.SchemaStatus Schemas.READ) in
  fst result = Returned 1 /\
  snd result !! 1%nat = Sample.inbox !! 1%nat /\
  (NotificationRow.status <$> snd result !! 0%nat) = Some "read" /\
  NotificationRow.member_named "read" = None.
Proof.
  cbv zeta.
  destruct (batch_update_status_owner_only Sample.sqlite_max_variable_number
              Sample.inbox [1; 2] 1 (CRUDNotification.SchemaStatus Schemas.READ))
    as (_ & Hother & _ & Hreturns & _ & _ & _ & Hschema).
  destruct Hreturns as (Hcount & Hown & _).
  - unfold Sample.sqlite_max_variable_number. simpl. lia.
  - intros i [<- | [<- | [<- | []]]]; lia.
  - split; [exact Hcount |]. split.
    + apply (Hother 1%nat); [reflexivity | discriminate].
    + split; [| exact (Hschema Schemas.READ)].
      rewrite (Hown 0%nat _ eq_refl); [reflexivity | now left | reflexivity].
Defined.

(** C9 (as stated) fails.  The list holds the id of a notification of
    another account and the id 2^63, which no row has: the call does
    not pass them over, it raises [OverflowError].  So does a list that
    names the notification of the other account more often than the
    engine allows parameters: it raises [OperationalError]. *)
Lemma batch_update_status_large_id_raises :
  let ids := [2; 2 ^ 63] in
  let many := repeat 2 (Z.to_nat 32765) in
  (2 + length ids <= Sample.sqlite_max_variable_number)%nat /\
  (forall n, In n Sample.inbox -> In (NotificationRow.id n) ids ->
             NotificationRow.user_id n = 2) /\
  CRUDNotification.batch_update_status Sample.sqlite_max_variable_number
    Sample.inbox ids 1 (CRUDNotification.ModelStatus READ) =
    (Raised OverflowError, Sample.inbox) /\
  fst (CRUDNotification.batch_update_status Sample.sqlite_max_variable_number
         Sample.inbox many 1 (CRUDNotification.ModelStatus READ)) =
    Raised OperationalError.
Proof.
  cbv zeta. split; [| split; [| split]].
  - unfold Sample.sqlite_max_variable_number. simpl. lia.
  - intros n [<- | [<- | []]]; simpl; [| reflexivity].
    intros [H1 | [H1 | []]]; discriminate.
  - reflexivity.
  - vm_compute. reflexivity.
Qed.

End Scenarios.

(** * Properties of the further operations *)

(** ** The inbox *)

Section InboxProperties.

Import Notification Inbox.

Implicit Types (db : list Notification.t) (n m : Notification.t).


Lemma NotificationStatus_eqb_eq (a b : NotificationStatus) :
  NotificationStatus_eqb a b = true <-> a = b.
Proof. destruct a, b; simpl; split; congruence. Qed.

Lemma unread_of_spec (owner : Z) n :
  unread_of owner n = true <-> user_id n = owner /\ status n = UNREAD.
Proof.
  unfold unread_of.
  rewrite andb_true_iff, Z.eqb_eq, NotificationStatus_eqb_eq. reflexivity.
Qed.



Lemma unread_of_other_after_mark db (owner other : Z) (now : datetime) :
  other <> owner ->
  List.filter (unread_of other)
    (map (fun n => if unread_of owner n then with_read READ (Some now) n else n) db) =
  List.filter (unread_of other) db.
Proof.
  intros Hne. induction db as [|n db IH]; simpl; [reflexivity |].
  destruct (unread_of owner n) eqn:Hu.
  - apply unread_of_spec in Hu as [Hown _].
    assert (Hother : (user_id n =? other) = false)
      by (apply Z.eqb_neq; congruence).
    assert (Hn : unread_of other n = false)
      by (unfold unread_of; now rewrite Hother).
    assert (Hn' : unread_of other (with_read READ (Some now) n) = false)
      by (unfold unread_of; simpl; now rewrite Hother).
    rewrite Hn, Hn'. exact IH.
  - destruct (unread_of other n); now rewrite IH.
Qed.

(** X2. [mark_all_as_read] returns the number of unread notifications
    of the account and leaves it with none; every row of another
    account, and every row of the account that was already read or
    archived, is untouched ([read_at] included); the unread counts of
    other accounts do not change; and a second call finds nothing to
    do: it returns 0 and changes no row. *)
Theorem mark_all_as_read_clears_unread db (owner : Z) (now : datetime) :
  let result := mark_all_as_read db owner now in
  fst result = get_unread_count db owner /\
  get_unread_count (snd result) owner = 0 /\
  length (snd result) = length db /\
  (forall i n, db !! i = Some n -> unread_of owner n = false ->
               snd result !! i = Some n) /\
  (forall i n, db !! i = Some n -> user_id n = owner -> status n = UNREAD ->
               snd result !! i = Some (with_read READ (Some now) n)) /\
  (forall other, other <> owner ->
                 get_unread_count (snd result) other = get_unread_count db other) /\
  (forall later, mark_all_as_read (snd result) owner later = (0, snd result)).
Proof.
  cbv zeta. unfold mark_all_as_read, get_unread_count. simpl.
  assert (Hnone : forall x,
            In x (map (fun n => if unread_of owner n
                                then with_read READ (Some now) n else n) db) ->
            unread_of owner x = false).
  { intros x Hx. apply in_map_iff in Hx as (n & <- & _).
    destruct (unread_of owner n) eqn:Hu; [| exact Hu].
    unfold unread_of. simpl. apply andb_false_r. }
  split; [reflexivity |].
  split; [now rewrite filter_none_length |].
  split; [apply length_map |].
  split; [| split; [| split]].
  - intros i n Hi Hu. rewrite lookup_map_row, Hi. simpl. now rewrite Hu.
  - intros i n Hi Hown Hst. rewrite lookup_map_row, Hi. simpl.
    replace (unread_of owner n) with true; [reflexivity |].
    symmetry. now apply unread_of_spec.
  - intros other Hne. now rewrite unread_of_other_after_mark.
  - intros later. rewrite filter_none_length by exact Hnone. f_equal.
    rewrite <- (map_id (map _ db)) at 2. apply map_ext_in.
    intros x Hx. now rewrite (Hnone x Hx).
Qed.

















End InboxProperties.

Section NotificationEndpoints.

Implicit Types (db : list Notification.t).



End NotificationEndpoints.

(** ** Notification settings *)

Section SettingsProperties.

Import NotificationSettings CRUDNotificationSettings.

Implicit Types (db : list NotificationSettings.t) (s : NotificationSettings.t).

Lemma settings_id_below_next db s : In s db -> id s < next_id db.
Proof.
  unfold next_id. induction db as [|x db IH]; simpl; [tauto |].
  intros [-> | Hin]; [lia |]. specialize (IH Hin). lia.
Qed.

Lemma find_owner_spec db (owner : Z) s :
  find (fun s => user_id s =? owner) db = Some s -> In s db /\ user_id s = owner.
Proof.
  intros Hfind. apply find_some in Hfind as [Hin Ho].
  split; [exact Hin | now apply Z.eqb_eq].
Qed.

(** X6. [get_or_create] gives every account one settings row.  If the
    account has a row it is returned and the table is as before;
    otherwise one row is appended, with a new id, for that account,
    with every switch on except quiet hours, quiet hours from 22:00 to
    08:00 and limits of 20 an hour and 200 a day.  Asking again returns
    the same row and adds nothing, and a table with at most one row per
    account stays so. *)
Theorem get_or_create_one_row_per_account db (owner : Z) (server_now : datetime) :
  let result := get_or_create db owner server_now in
  user_id (fst result) = owner /\
  In (fst result) (snd result) /\
  (forall s, find (fun s => user_id s =? owner) db = Some s ->
             result = (s, db)) /\
  ((forall s, In s db -> user_id s <> owner) ->
   snd result = db ++ [fst result] /\
   fst result =
     mk (next_id db) owner true true true true true true true false
        "22:00" "08:00" 20 200 (Some server_now) None /\
   (forall s, In s db -> id s <> id (fst result))) /\
  (forall later, get_or_create (snd result) owner later = result) /\
  (NoDup (map user_id db) -> NoDup (map user_id (snd result))).
Proof.
  cbv zeta. unfold get_or_create.
  destruct (find (fun s => user_id s =? owner) db) as [found|] eqn:Hfind; simpl.
  - destruct (find_owner_spec _ _ _ Hfind) as [Hin Hown].
    split; [exact Hown |]. split; [exact Hin |].
    split; [now intros s [= <-] |].
    split; [intros Hnone; now destruct (Hnone found Hin) |].
    split; [intros later; now rewrite Hfind | trivial].
  - pose proof (proj1 (find_none_iff _ _) Hfind) as Hnone.
    split; [reflexivity |].
    split; [apply in_or_app; right; now left |].
    split; [discriminate |].
    split.
    + intros _. split; [reflexivity |]. split; [reflexivity |].
      intros s Hs. simpl. pose proof (settings_id_below_next db s Hs). lia.
    + split.
      * intros later.
        rewrite (find_app_none _ db (new_settings db owner server_now) Hfind);
          [reflexivity | simpl; apply Z.eqb_refl].
      * intros Hnd. rewrite map_app. simpl.
        apply NoDup_app. split; [exact Hnd |]. split; [| apply NoDup_singleton].
        intros x Hx ->%list_elem_of_singleton.
        apply list_elem_of_In, in_map_iff in Hx as (s & Hs & Hin).
        specialize (Hnone s Hin). simpl in Hnone.
        apply Z.eqb_neq in Hnone. contradiction.
Qed.

Lemma find_after_replace {A} (key : A -> Z) (p : A -> bool) (l : list A) (x x' : A) :
  find p l = Some x -> key x' = key x -> p x' = true ->
  find p (map (fun row => if key row =? key x' then x' else row) l) = Some x'.
Proof.
  induction l as [|h l IH]; simpl; [discriminate |].
  intros Hfind Hkey Hp.
  destruct (p h) eqn:Hph.
  - injection Hfind as ->. rewrite Hkey, Z.eqb_refl. now rewrite Hp.
  - destruct (key h =? key x'); [now rewrite Hp |].
    rewrite Hph. now apply IH.
Qed.

(** [get_or_create] returns a row of the account, and the table it
    leaves has that row as the row of the account. *)
Lemma get_or_create_row db (owner : Z) (server_now : datetime) :
  user_id (fst (get_or_create db owner server_now)) = owner /\
  find (fun s => user_id s =? owner) (snd (get_or_create db owner server_now)) =
    Some (fst (get_or_create db owner server_now)).
Proof.
  unfold get_or_create.
  destruct (find (fun s => user_id s =? owner) db) as [found|] eqn:Hfind; simpl.
  - split; [| exact Hfind]. now destruct (find_owner_spec _ _ _ Hfind).
  - split; [reflexivity |].
    apply find_app_none; [exact Hfind | simpl; apply Z.eqb_refl].
Qed.

(** X7. [update] of the settings, field by field: each of the twelve
    fields of the request takes the value sent when the request sets
    it, and keeps the value the account had (the default, if the
    account had no row yet) when the request leaves it out; the id, the
    account and [created_at] stay and [updated_at] is the clock
    reading; rows with another id are untouched and no row is added
    beyond the one [get_or_create] may create; and reading the settings
    afterwards returns exactly what [update] returned. *)
Theorem update_settings_keeps_unset_fields db (owner : Z)
    (obj_in : NotificationSettingsUpdate.t) (server_now now : datetime) :
  let before := fst (get_or_create db owner server_now) in
  let result := update db owner obj_in server_now now in
  user_id (fst result) = owner /\
  id (fst result) = id before /\
  created_at (fst result) = created_at before /\
  updated_at (fst result) = Some now /\
  (forall v, NotificationSettingsUpdate.notifications_enabled obj_in = Some v ->
             notifications_enabled (fst result) = v) /\
  (NotificationSettingsUpdate.notifications_enabled obj_in = None ->
   notifications_enabled (fst result) = notifications_enabled before) /\
  (forall v, NotificationSettingsUpdate.twitter_notifications obj_in = Some v ->
             twitter_notifications (fst result) = v) /\
  (NotificationSettingsUpdate.twitter_notifications obj_in = None ->
   twitter_notifications (fst result) = twitter_notifications before) /\
  (forall v, NotificationSettingsUpdate.wallet_notifications obj_in = Some v ->
             wallet_notifications (fst result) = v) /\
  (NotificationSettingsUpdate.wallet_notifications obj_in = None ->
   wallet_notifications (fst result) = wallet_notifications before) /\
  (forall v, NotificationSettingsUpdate.blackrock_notifications obj_in = Some v ->
             blackrock_notifications (fst result) = v) /\
  (NotificationSettingsUpdate.blackrock_notifications obj_in = None ->
   blackrock_notifications (fst result) = blackrock_notifications before) /\
  (forall v, NotificationSettingsUpdate.system_notifications obj_in = Some v ->
             system_notifications (fst result) = v) /\
  (NotificationSettingsUpdate.system_notifications obj_in = None ->
   system_notifications (fst result) = system_notifications before) /\
  (forall v, NotificationSettingsUpdate.email_notifications obj_in = Some v ->
             email_notifications (fst result) = v) /\
  (NotificationSettingsUpdate.email_notifications obj_in = None ->
   email_notifications (fst result) = email_notifications before) /\
  (forall v, NotificationSettingsUpdate.browser_notifications obj_in = Some v ->
             browser_notifications (fst result) = v) /\
  (NotificationSettingsUpdate.browser_notifications obj_in = None ->
   browser_notifications (fst result) = browser_notifications before) /\
  (forall v, NotificationSettingsUpdate.quiet_hours_enabled obj_in = Some v ->
             quiet_hours_enabled (fst result) = v) /\
  (NotificationSettingsUpdate.quiet_hours_enabled obj_in = None ->
   quiet_hours_enabled (fst result) = quiet_hours_enabled before) /\
  (forall v, NotificationSettingsUpdate.quiet_hours_start obj_in = Some v ->
             quiet_hours_start (fst result) = v) /\
  (NotificationSettingsUpdate.quiet_hours_start obj_in = None ->
   quiet_hours_start (fst result) = quiet_hours_start before) /\
  (forall v, NotificationSettingsUpdate.quiet_hours_end obj_in = Some v ->
             quiet_hours_end (fst result) = v) /\
  (NotificationSettingsUpdate.quiet_hours_end obj_in = None ->
   quiet_hours_end (fst result) = quiet_hours_end before) /\
  (forall v, NotificationSettingsUpdate.max_notifications_per_hour obj_in = Some v ->
             max_notifications_per_hour (fst result) = v) /\
  (NotificationSettingsUpdate.max_notifications_per_hour obj_in = None ->
   max_notifications_per_hour (fst result) = max_notifications_per_hour before) /\
  (forall v, NotificationSettingsUpdate.max_notifications_per_day obj_in = Some v ->
             max_notifications_per_day (fst result) = v) /\
  (NotificationSettingsUpdate.max_notifications_per_day obj_in = None ->
   max_notifications_per_day (fst result) = max_notifications_per_day before) /\
  length (snd result) = length (snd (get_or_create db owner server_now)) /\
  (forall i row, db !! i = Some row -> id row <> id before ->
                 snd result !! i = Some row) /\
  (forall later, get_or_create (snd result) owner later = result).
Proof.
  cbv zeta. unfold update.
  pose proof (get_or_create_row db owner server_now) as (Hown & Hfind).
  destruct (get_or_create db owner server_now) as [before db1] eqn:Hcreate.
  simpl in *.
  split; [exact Hown |].
  split; [reflexivity |]. split; [reflexivity |]. split; [reflexivity |].
  split; [intros v Hv; now rewrite Hv |].
  split; [intros Hv; now rewrite Hv |].
  split; [intros v Hv; now rewrite Hv |].
  split; [intros Hv; now rewrite Hv |].
  split; [intros v Hv; now rewrite Hv |].
  split; [intros Hv; now rewrite Hv |].
  split; [intros v Hv; now rewrite Hv |].
  split; [intros Hv; now rewrite Hv |].
  split; [intros v Hv; now rewrite Hv |].
  split; [intros Hv; now rewrite Hv |].
  split; [intros v Hv; now rewrite Hv |].
  split; [intros Hv; now rewrite Hv |].
  split; [intros v Hv; now rewrite Hv |].
  split; [intros Hv; now rewrite Hv |].
  split; [intros v Hv; now rewrite Hv |].
  split; [intros Hv; now rewrite Hv |].
  split; [intros v Hv; now rewrite Hv |].
  split; [intros Hv; now rewrite Hv |].
  split; [intros v Hv; now rewrite Hv |].
  split; [intros Hv; now rewrite Hv |].
  split; [intros v Hv; now rewrite Hv |].
  split; [intros Hv; now rewrite Hv |].
  split; [intros v Hv; now rewrite Hv |].
  split; [intros Hv; now rewrite Hv |].
  split; [apply length_map |].
  split.
  - intros i row Hi Hne.
    assert (Hi1 : db1 !! i = Some row).
    { revert Hcreate. unfold get_or_create.
      destruct (find (fun s => user_id s =? owner) db); intros [= <- <-];
        [exact Hi |].
      now apply lookup_app_l_Some. }
    unfold CRUDNotificationSettings.update_row.
    rewrite lookup_map_row, Hi1. simpl.
    apply Z.eqb_neq in Hne. now rewrite Hne.
  - intros later. unfold get_or_create.
    unfold CRUDNotificationSettings.update_row.
    rewrite (find_after_replace id (fun s => user_id s =? owner) db1 before
               (assign obj_in now before) Hfind);
      [reflexivity | reflexivity |].
    simpl. now apply Z.eqb_eq.
Qed.

End SettingsProperties.

(** ** Accounts: creation for a device, login *)

Section AccountsMore.

Context `{Security} (settings : Settings).

(** X8. [create_auto_user] cannot store an account: it builds the row
    without e-mail address, and column [email] is not nullable.  With
    draws for a free username and for the password it raises
    [IntegrityError]; in every case table [users] is as before. *)
Theorem create_auto_user_violates_not_null (obj_in : AutoRegister.t)
    (ip_address : option string) (w : World) :
  let result := create_auto_user settings obj_in ip_address w in
  users (snd result) = users w /\
  (fst result = Raised IntegrityError \/ fst result = Exhausted) /\
  (forall name password rest,
     first_free_username (users w) (rng w) = Some (name, password :: rest) ->
     fst result = Raised IntegrityError).
Proof.
  cbv zeta.
  unfold create_auto_user, generate_unique_username, generate_random_password,
    random_choices, db_insert, bind, lift, utcnow. simpl.
  destruct (first_free_username (users w) (rng w)) as [[name rest]|]; simpl;
    [| split; [reflexivity | split; [now right | discriminate]]].
  destruct rest as [|password rest]; simpl;
    [split; [reflexivity | split; [now right | discriminate]] |].
  split; [reflexivity |]. split; [now left | reflexivity].
Qed.

(** X9. [login_for_access_token] answers 401 when [authenticate]
    yields no account; when it yields one the call stops at the
    undeclared setting [REFRESH_TOKEN_EXPIRE_MINUTES] with
    [AttributeError].  Either way nothing is written: no login ever
    updates [last_login_at]. *)
Theorem login_never_issues_tokens (username' password : string) (w : World) :
  (authenticate (users w) username' password = None ->
   login_for_access_token settings username' password w =
     (Raised (HTTPException 401), w)) /\
  (forall user, authenticate (users w) username' password = Some user ->
   login_for_access_token settings username' password w =
     (Raised AttributeError, w)).
Proof.
  unfold login_for_access_token. rewrite bind_db_query. split.
  - intros Hnone. now rewrite Hnone.
  - intros user Hsome. now rewrite Hsome.
Qed.

End AccountsMore.

(** ** Profile, password and account deletion *)

Section UsersEndpointsProperties.

Context `{Security}.

Implicit Types (us : list User) (w : World).

Lemma same_present_none_r (a : option string) : same_present a None = false.
Proof. now destruct a. Qed.

(** Writing back a row whose username and e-mail address did not change
    violates no constraint. *)
Lemma update_violates_same_identity us (old new : User) :
  username new = username old -> email new = email old ->
  update_violates us old new = false.
Proof.
  intros Hname Haddr. unfold update_violates. rewrite Hname, Haddr.
  rewrite String.eqb_refl. simpl.
  destruct (email old) as [e|]; simpl.
  - now rewrite String.eqb_refl.
  - induction us as [|v us IH]; simpl; [reflexivity |].
    now rewrite same_present_none_r, andb_false_r.
Qed.

(** X10. [update_user_profile] never updates a profile.  Whatever the
    request, the call ends in 400 (the username or the e-mail address
    belongs to another account) or in [AttributeError] (the request
    body has no field [phone]), before the commit, so that the state is
    exactly as before; a request that sets neither username nor e-mail
    address, for instance one that only flips a notification switch,
    ends in [AttributeError]. *)
Theorem update_user_profile_never_commits (user_update : UserUpdate.t)
    (current_user : User) w :
  let result := update_user_profile user_update current_user w in
  snd result = w /\
  (fst result = Raised (HTTPException 400) \/ fst result = Raised AttributeError) /\
  (UserUpdate.username user_update = None ->
   UserUpdate.email user_update = None ->
   fst result = Raised AttributeError).
Proof.
  cbv zeta. unfold update_user_profile, bind, lift, db_query, raise, ret.
  simpl.
  destruct (truthy_str (UserUpdate.username user_update) &&
            negb (same_present (UserUpdate.username user_update)
                    (Some (username current_user)))) eqn:Hname; simpl.
  - destruct (find _ (users w)) as [taken|]; simpl.
    + split; [reflexivity |]. split; [now left |].
      intros Hn. rewrite Hn in Hname. discriminate.
    + destruct (truthy_str (UserUpdate.email user_update) &&
                differs (default "" (UserUpdate.email user_update))
                  (email current_user)) eqn:Haddr; simpl.
      * destruct (find _ (users w)) as [taken|]; simpl.
        -- split; [reflexivity |]. split; [now left |].
           intros Hn. rewrite Hn in Hname. discriminate.
        -- split; [reflexivity |]. split; [now right | reflexivity].
      * split; [reflexivity |]. split; [now right | reflexivity].
  - destruct (truthy_str (UserUpdate.email user_update) &&
              differs (default "" (UserUpdate.email user_update))
                (email current_user)) eqn:Haddr; simpl.
    + destruct (find _ (users w)) as [taken|]; simpl.
      * split; [reflexivity |]. split; [now left |].
        intros _ Ha. rewrite Ha in Haddr. discriminate.
      * split; [reflexivity |]. split; [now right | reflexivity].
    + split; [reflexivity |]. split; [now right | reflexivity].
Qed.

(** The row that a password change writes. *)
Lemma commit_password_writes (current_user : User) (h : string) w :
  db_commit_changes current_user (with_hashed_password (Some h) current_user) w =
  (Returned (with_updated_at (Some (clock w (ticks w)))
               (with_hashed_password (Some h) current_user)),
   mkWorld
     (update_row (with_updated_at (Some (clock w (ticks w)))
                    (with_hashed_password (Some h) current_user)) (users w))
     (redis w) (redis_up w) (clock w) (S (ticks w)) (rng w)).
Proof.
  unfold db_commit_changes.
  rewrite update_violates_same_identity by reflexivity.
  reflexivity.
Qed.

(** The query of [authenticate] after an UPDATE of the row it yielded
    that keeps the username and the e-mail address: it yields the
    updated row. *)
Lemma first_by_username_or_email_updated us (x x' : User) (identifier : string) :
  first_by_username_or_email us identifier = Some x ->
  id x' = id x -> username x' = username x -> email x' = email x ->
  first_by_username_or_email (update_row x' us) identifier = Some x'.
Proof.
  intros Hfound Hid Hname Haddr.
  unfold first_by_username_or_email, get_by_username, get_by_email, update_row in *.
  destruct (find (fun u => String.eqb (username u) identifier) us)
    as [named|] eqn:Hnamed.
  - injection Hfound as ->.
    rewrite (find_after_replace id (fun u => String.eqb (username u) identifier)
               us x x' Hnamed Hid); [reflexivity |].
    rewrite Hname. now apply find_some in Hnamed.
  - assert (Hin : In x us) by now apply find_some in Hfound.
    rewrite find_none_iff in Hnamed.
    replace (find (fun u => String.eqb (username u) identifier)
               (map (fun row => if id row =? id x' then x' else row) us))
      with (@None User).
    + rewrite (find_after_replace id (fun u => col_eqb (email u) identifier)
                 us x x' Hfound Hid); [reflexivity |].
      rewrite Haddr. now apply find_some in Hfound.
    + symmetry. apply find_none_iff. intros v Hv.
      apply in_map_iff in Hv as (row & <- & Hrow).
      destruct (id row =? id x').
      * rewrite Hname. exact (Hnamed x Hin).
      * exact (Hnamed row Hrow).
Qed.

(** After the row the query yields for an identifier got a new
    password hash, [authenticate] accepts for that identifier exactly
    the passwords that verify against the new hash. *)
Lemma authenticate_after_password_write us (current_user : User) (h : string)
    (stamp : option datetime) (identifier password : string) :
  first_by_username_or_email us identifier = Some current_user ->
  authenticate
    (update_row (with_updated_at stamp (with_hashed_password (Some h) current_user)) us)
    identifier password =
  if verify_hash password h
  then Some (with_updated_at stamp (with_hashed_password (Some h) current_user))
  else None.
Proof.
  intros Hfound. unfold authenticate.
  rewrite (first_by_username_or_email_updated us current_user
             (with_updated_at stamp (with_hashed_password (Some h) current_user))
             identifier Hfound eq_refl eq_refl eq_refl).
  simpl. now destruct (verify_hash password h).
Qed.

(** X11. [change_password] is refused with 400, and changes nothing,
    when the account has no password hash or the old password does not
    verify against it.  Otherwise it returns and writes the hash of the
    new password (and [updated_at]) to the account's row, leaving the
    rows of other accounts alone; from then on, for every identifier
    for which the query of [authenticate] yields the account (its
    username, when the account is the row with that username; its
    e-mail address, when no row has the address as username),
    [authenticate] accepts exactly the passwords that verify against
    the new hash. *)
Theorem change_password_replaces_hash (old_password new_password : string)
    (current_user : User) w :
  let result := change_password old_password new_password current_user w in
  let changed :=
    with_updated_at (Some (clock w (ticks w)))
      (with_hashed_password (Some (get_password_hash new_password)) current_user) in
  (truthy_str (hashed_password current_user) = false ->
   result = (Raised (HTTPException 400), w)) /\
  (verify_password old_password (hashed_password current_user) = false ->
   result = (Raised (HTTPException 400), w)) /\
  (truthy_str (hashed_password current_user) = true ->
   verify_password old_password (hashed_password current_user) = true ->
   fst result = Returned tt /\
   users (snd result) = update_row changed (users w) /\
   (forall i row, users w !! i = Some row -> id row <> id current_user ->
                  users (snd result) !! i = Some row) /\
   (forall identifier password,
      first_by_username_or_email (users w) identifier = Some current_user ->
      authenticate (users (snd result)) identifier password =
      if verify_hash password (get_password_hash new_password)
      then Some changed else None) /\
   (get_by_username (users w) (username current_user) = Some current_user ->
    forall password,
      authenticate (users (snd result)) (username current_user) password =
      if verify_hash password (get_password_hash new_password)
      then Some changed else None)).
Proof.
  cbv zeta. unfold change_password. split; [| split].
  - intros Hnone. now rewrite Hnone.
  - intros Hbad. rewrite Hbad.
    now destruct (truthy_str (hashed_password current_user)).
  - intros Hset Hok. rewrite Hset, Hok. simpl.
    unfold bind. rewrite commit_password_writes. simpl.
    split; [reflexivity |]. split; [reflexivity |].
    split; [| split].
    + intros i row Hi Hne. eapply update_row_other; [exact Hi | exact Hne].
    + intros identifier password Hfound.
      now apply authenticate_after_password_write.
    + intros Hnamed password.
      apply authenticate_after_password_write.
      unfold first_by_username_or_email. now rewrite Hnamed.
Qed.

(** X12. [set_password] gives a password to an account that has none.
    It is refused with 400, and changes nothing, when the account has
    a (non-empty) password hash or the password has fewer than six
    characters (characters, not bytes).  Otherwise it returns and
    writes the hash; from then on, for every identifier for which the
    query of [authenticate] yields the account, [authenticate] accepts
    exactly the passwords that verify against that hash, and, the hash
    being non-empty, a second [set_password] on the account is
    refused. *)
Theorem set_password_only_once (new_password : string) (current_user : User) w :
  let result := set_password new_password current_user w in
  let changed :=
    with_updated_at (Some (clock w (ticks w)))
      (with_hashed_password (Some (get_password_hash new_password)) current_user) in
  (truthy_str (hashed_password current_user) = true ->
   result = (Raised (HTTPException 400), w)) /\
  ((py_len new_password < 6)%nat ->
   result = (Raised (HTTPException 400), w)) /\
  (truthy_str (hashed_password current_user) = false ->
   (6 <= py_len new_password)%nat ->
   fst result = Returned tt /\
   users (snd result) = update_row changed (users w) /\
   (forall identifier password,
      first_by_username_or_email (users w) identifier = Some current_user ->
      authenticate (users (snd result)) identifier password =
      if verify_hash password (get_password_hash new_password)
      then Some changed else None) /\
   (get_by_username (users w) (username current_user) = Some current_user ->
    forall password,
      authenticate (users (snd result)) (username current_user) password =
      if verify_hash password (get_password_hash new_password)
      then Some changed else None) /\
   (get_password_hash new_password <> "" ->
    forall again w',
      set_password again changed w' = (Raised (HTTPException 400), w'))).
Proof.
  cbv zeta. unfold set_password. split; [| split].
  - intros Hset. now rewrite Hset.
  - intros Hshort. apply Nat.ltb_lt in Hshort. rewrite Hshort.
    now destruct (truthy_str (hashed_password current_user)).
  - intros Hunset Hlong. rewrite Hunset.
    replace (py_len new_password <? 6)%nat with false
      by (symmetry; apply Nat.ltb_ge; exact Hlong).
    unfold bind. rewrite commit_password_writes. simpl.
    split; [reflexivity |]. split; [reflexivity |].
    split; [| split].
    + intros identifier password Hfound.
      now apply authenticate_after_password_write.
    + intros Hnamed password.
      apply authenticate_after_password_write.
      unfold first_by_username_or_email. now rewrite Hnamed.
    + intros Hnonempty again w'. simpl.
      replace (String.eqb (get_password_hash new_password) "") with false;
        [reflexivity |].
      symmetry. now apply String.eqb_neq.
Qed.

(** X13. [delete_account] on an account that has an e-mail address
    raises [IntegrityError] and changes nothing: it sets [email] to
    [None], and the column is not nullable; the account stays active.
    Only a row without e-mail address is written: it becomes inactive,
    and the other columns but [updated_at] stay. *)
Theorem delete_account_violates_not_null (current_user : User) w :
  let result := delete_account current_user w in
  (forall address, email current_user = Some address ->
     result = (Raised IntegrityError, w)) /\
  (email current_user = None ->
   fst result = Returned tt /\
   users (snd result) =
     update_row (with_updated_at (Some (clock w (ticks w)))
                   (with_status INACTIVE current_user)) (users w)).
Proof.
  cbv zeta. unfold delete_account, bind, db_commit_changes. split.
  - intros address Haddr. unfold update_violates. now rewrite Haddr.
  - intros Hnone.
    assert (Hsame : with_email None (with_status INACTIVE current_user) =
                    with_status INACTIVE current_user).
    { unfold with_email. simpl. rewrite <- Hnone. reflexivity. }
    rewrite Hsame.
    rewrite update_violates_same_identity by reflexivity.
    simpl. split; reflexivity.
Qed.

End UsersEndpointsProperties.

(** ** The authenticated account *)

Section DepsProperties.

Variable verify_token : string -> option Z.

Implicit Types (w : World) (token : string).

(** The properties read the clock at most once, and return what the
    functions of the entitlement section give at that reading. *)
Lemma read_is_trial_expired_value (self : User) w :
  fst (read_is_trial_expired self w) =
    Returned (is_trial_expired self (clock w (ticks w))) /\
  users (snd (read_is_trial_expired self w)) = users w /\
  clock (snd (read_is_trial_expired self w)) = clock w /\
  (ticks w <= ticks (snd (read_is_trial_expired self w)) <= S (ticks w))%nat.
Proof.
  unfold read_is_trial_expired, is_trial_expired, bind, utcnow, ret.
  destruct (negb (UserType_eqb (user_type self) TRIAL)); simpl;
    [repeat split; lia |].
  destruct (trial_end_date self); simpl; repeat split; lia.
Qed.

Lemma read_is_subscription_active_value (self : User) w :
  fst (read_is_subscription_active self w) =
    Returned (is_subscription_active self (clock w (ticks w))) /\
  users (snd (read_is_subscription_active self w)) = users w.
Proof.
  unfold read_is_subscription_active, is_subscription_active,
    read_is_trial_expired, is_trial_expired, bind, utcnow, ret.
  destruct (UserType_eqb (user_type self) TRIAL) eqn:Ht; simpl.
  - destruct (trial_end_date self); simpl; split; reflexivity.
  - destruct (UserType_eqb (user_type self) LIFETIME); simpl;
      [split; reflexivity |].
    destruct (subscription_end_date self); simpl; split; reflexivity.
Qed.

(** [get_current_user] writes nothing. *)
Lemma get_current_user_reads_only token w :
  snd (get_current_user verify_token token w) = w.
Proof.
  unfold get_current_user, bind, db_query, raise, ret.
  destruct (verify_token token) as [user_id|]; simpl; [| reflexivity].
  destruct (find (fun u => id u =? user_id) (users w)) as [found|]; simpl;
    [| reflexivity].
  now destruct (status found).
Qed.

(** X14. [get_current_user] returns an account exactly when the token
    verifies to the id of a row whose status is active, and then it
    returns that row; a valid token of an inactive, suspended or
    expired account is answered 403, a token that does not verify or
    names no row 401; the state is never changed. *)
Theorem get_current_user_only_active token w :
  let result := get_current_user verify_token token w in
  snd result = w /\
  (forall user,
     fst result = Returned user <->
     exists user_id,
       verify_token token = Some user_id /\
       find (fun u => id u =? user_id) (users w) = Some user /\
       status user = ACTIVE) /\
  (forall user_id user,
     verify_token token = Some user_id ->
     find (fun u => id u =? user_id) (users w) = Some user ->
     status user <> ACTIVE ->
     fst result = Raised (HTTPException 403)) /\
  (verify_token token = None -> fst result = Raised (HTTPException 401)) /\
  (forall user_id,
     verify_token token = Some user_id ->
     find (fun u => id u =? user_id) (users w) = None ->
     fst result = Raised (HTTPException 401)).
Proof.
  cbv zeta. unfold get_current_user.
  destruct (verify_token token) as [user_id|]; simpl.
  - rewrite bind_db_query.
    destruct (find (fun u => id u =? user_id) (users w)) as [found|] eqn:Hfind.
    + assert (Hcases :
                (status found = ACTIVE /\
                 match status found with
                 | ACTIVE => ret found
                 | _ => raise (HTTPException 403)
                 end w = (Returned found, w)) \/
                (status found <> ACTIVE /\
                 match status found with
                 | ACTIVE => ret found
                 | _ => raise (HTTPException 403)
                 end w = (Raised (HTTPException 403), w))).
      { destruct (status found); [left | right | right | right];
          (split; [congruence | reflexivity]). }
      destruct Hcases as [[Hact ->] | [Hna ->]]; simpl.
      * split; [reflexivity |]. split; [| split; [| split]].
        -- intros user. split.
           ++ intros [= <-]. exists user_id. auto.
           ++ intros (uid & [= <-] & Hf & _).
              rewrite Hfind in Hf. now injection Hf as <-.
        -- intros uid user [= <-] Hf Hna.
           rewrite Hfind in Hf. injection Hf as <-. contradiction.
        -- discriminate.
        -- intros uid [= <-] Hf. rewrite Hfind in Hf. discriminate.
      * split; [reflexivity |]. split; [| split; [| split]].
        -- intros user. split; [discriminate |].
           intros (uid & [= <-] & Hf & Hact).
           rewrite Hfind in Hf. injection Hf as <-. contradiction.
        -- reflexivity.
        -- discriminate.
        -- intros uid [= <-] Hf. rewrite Hfind in Hf. discriminate.
    + simpl. split; [reflexivity |]. split; [| split; [| split]].
      * intros user. split; [discriminate |].
        intros (uid & [= <-] & Hf & _). rewrite Hfind in Hf. discriminate.
      * intros uid user [= <-] Hf. rewrite Hfind in Hf. discriminate.
      * discriminate.
      * reflexivity.
  - split; [reflexivity |]. split; [| split; [| split]].
    + intros user. split; [discriminate |]. intros (uid & Hv & _). discriminate.
    + intros uid user. discriminate.
    + reflexivity.
    + intros uid. discriminate.
Qed.

(** X15. [get_optional_user] never raises: without credentials it
    returns [None]; with a token it returns the account
    [get_current_user] returns, and [None] where [get_current_user]
    answers 401 or 403.  The state is never changed. *)
Theorem get_optional_user_never_raises (credentials : option string) w :
  let result := get_optional_user verify_token credentials w in
  snd result = w /\
  (credentials = None -> fst result = Returned None) /\
  (forall token, credentials = Some token ->
     fst result =
       Returned (match fst (get_current_user verify_token token w) with
                 | Returned user => Some user
                 | _ => None
                 end)).
Proof.
  cbv zeta.
  destruct credentials as [token|]; simpl;
    [| split; [reflexivity | split; [reflexivity | discriminate]]].
  unfold get_optional_user, try_except, bind, ret.
  pose proof (get_current_user_reads_only token w) as Hsame.
  assert (Hexn : forall e, fst (get_current_user verify_token token w) = Raised e ->
                           exists code, e = HTTPException code).
  { unfold get_current_user, bind, db_query, raise, ret.
    destruct (verify_token token) as [uid|]; simpl; [| intros e [= <-]; eauto].
    destruct (find (fun u => id u =? uid) (users w)) as [found|]; simpl;
      [| intros e [= <-]; eauto].
    destruct (status found); simpl; intros e; try discriminate;
      intros [= <-]; eauto. }
  assert (Hnot : fst (get_current_user verify_token token w) <> Exhausted).
  { unfold get_current_user, bind, db_query, raise, ret.
    destruct (verify_token token) as [uid|]; simpl; [| discriminate].
    destruct (find (fun u => id u =? uid) (users w)) as [found|]; simpl;
      [| discriminate].
    destruct (status found); discriminate. }
  destruct (get_current_user verify_token token w) as [[user| e |] w'] eqn:Hrun;
    simpl in *; subst w'.
  - split; [reflexivity |]. split; [discriminate |].
    intros t [= <-]. now rewrite Hrun.
  - destruct (Hexn e eq_refl) as [code ->]. simpl.
    split; [reflexivity |]. split; [discriminate |].
    intros t [= <-]. now rewrite Hrun.
  - now destruct Hnot.
Qed.

(** X16. [get_current_active_user] lets an account through exactly
    when [get_current_user] returns it and its subscription is active
    at the clock reading: it answers 403 otherwise, for instance for a
    trial account whose trial has ended, and passes on the 401 or 403
    of [get_current_user].  A lifetime account that
    [get_current_user] returns always passes.  Table [users] is never
    changed. *)
Theorem get_current_active_user_gate token w :
  let result := get_current_active_user verify_token token w in
  users (snd result) = users w /\
  (forall user, fst (get_current_user verify_token token w) = Returned user ->
     fst result =
       (if is_subscription_active user (clock w (ticks w))
        then Returned user else Raised (HTTPException 403)) /\
     (user_type user = LIFETIME -> fst result = Returned user) /\
     (forall trial_end, user_type user = TRIAL ->
        trial_end_date user = Some trial_end ->
        clock w (ticks w) > trial_end ->
        fst result = Raised (HTTPException 403))) /\
  (forall e, fst (get_current_user verify_token token w) = Raised e ->
     fst result = Raised e).
Proof.
  cbv zeta. unfold get_current_active_user.
  pose proof (get_current_user_reads_only token w) as Hsame.
  destruct (get_current_user verify_token token w) as [[user| e |] w'] eqn:Hrun;
    simpl in Hsame; subst w'.
  - rewrite (bind_returned _ _ _ _ _ Hrun).
    destruct (read_is_subscription_active_value user w) as [Hval Husers].
    destruct (read_is_subscription_active user w) as [active w1] eqn:Hread.
    simpl in Hval, Husers. subst active.
    rewrite (bind_returned _ _ _ _ _ Hread).
    set (active := is_subscription_active user (clock w (ticks w))).
    assert (Hres : fst ((if negb active then raise (HTTPException 403)
                         else ret user) w1) =
                   if active then Returned user else Raised (HTTPException 403))
      by (destruct active; reflexivity).
    split; [now destruct active |].
    split; [| discriminate].
    intros u [= <-]. split; [exact Hres |]. split.
    + intros Hlife. rewrite Hres. subst active.
      unfold is_subscription_active. now rewrite Hlife.
    + intros trial_end Htrial Hend Hlate. rewrite Hres. subst active.
      unfold is_subscription_active, is_trial_expired.
      rewrite Htrial, Hend. simpl.
      replace (clock w (ticks w) >? trial_end) with true; [reflexivity |].
      symmetry. apply Z.gtb_gt. lia.
  - rewrite (bind_raised _ _ _ _ _ Hrun).
    split; [reflexivity |]. split; [discriminate |]. now intros e' [= <-].
  - unfold bind. rewrite Hrun.
    split; [reflexivity |]. split; discriminate.
Qed.

End DepsProperties.

(** ** Subscription status *)

Section SubscriptionStatusProperties.

(** X17. [get_subscription_status] reads the clock once for
    [is_trial_expired] and once more for [is_subscription_active].
    With a clock that does not run backwards the report never shows a
    trial as expired and the subscription as active at once; for an
    account that is not on trial [is_trial_expired] is false, and for a
    lifetime account [is_subscription_active] is true.  Nothing is
    written. *)
Theorem subscription_status_consistent (current_user : User) (w : World) :
  monotone_clock w ->
  exists report w',
    get_subscription_status current_user w = (Returned report, w') /\
    users w' = users w /\
    SubscriptionStatus.is_trial report = UserType_eqb (user_type current_user) TRIAL /\
    SubscriptionStatus.is_trial_expired report =
      is_trial_expired current_user (clock w (ticks w)) /\
    (SubscriptionStatus.is_trial_expired report = true ->
     SubscriptionStatus.is_subscription_active report = false) /\
    (user_type current_user <> TRIAL ->
     SubscriptionStatus.is_trial_expired report = false) /\
    (user_type current_user = LIFETIME ->
     SubscriptionStatus.is_subscription_active report = true) /\
    SubscriptionStatus.can_add_follows report =
      (current_follows current_user <? max_follows current_user).
Proof.
  intros Hmono.
  unfold get_subscription_status, read_is_subscription_active,
    read_is_trial_expired, is_trial_expired, bind, utcnow, ret.
  destruct (user_type current_user) eqn:Hty; simpl.
  - destruct (trial_end_date current_user) as [trial_end|]; simpl.
    + eexists. eexists. split; [reflexivity |]. simpl.
      repeat split; try congruence.
      intros Hexpired. apply Z.gtb_gt in Hexpired.
      apply negb_false_iff. apply Z.gtb_gt.
      pose proof (Hmono (ticks w) (S (ticks w)) (Nat.le_succ_diag_r _)). lia.
    + eexists. eexists. split; [reflexivity |]. simpl.
      repeat split; try congruence.
  - destruct (subscription_end_date current_user); simpl;
      eexists; eexists; (split; [reflexivity |]); simpl;
      repeat split; try congruence.
  - destruct (subscription_end_date current_user); simpl;
      eexists; eexists; (split; [reflexivity |]); simpl;
      repeat split; try congruence.
  - eexists. eexists. split; [reflexivity |]. simpl.
    repeat split; try congruence.
Qed.

End SubscriptionStatusProperties.

(** ** Issuing verification codes *)

Section IssuingCodes.

Import EmailService.

Implicit Types (w : World) (email code given : string).

Lemma key_of_injective (a b : string) : key_of a = key_of b -> a = b.
Proof. unfold key_of. simpl. intros Heq. now injection Heq. Qed.

(** What [send_verification_code] does with Redis up and a draw. *)
Lemma send_verification_code_run email code (rest : list string) w :
  redis_up w = true -> rng w = code :: rest ->
  send_verification_code email w =
    (Returned true,
     mkWorld (users w)
       (<[key_of email :=
            mkEntry code (clock w (ticks w))
              (clock w (S (ticks w)) + seconds default_expires_in)
              (clock w (S (S (ticks w))) + seconds default_expires_in)]> (redis w))
       true (clock w) (3 + ticks w) rest).
Proof.
  intros Hup Hrng.
  unfold send_verification_code, generate_verification_code, random_choices,
    store_verification_code, send_verification_email, try_except, redis_setex,
    bind, utcnow, ret.
  rewrite Hrng. simpl. rewrite Hup. simpl.
  unfold set_redis, set_ticks, set_rng. simpl. now rewrite Hup.
Qed.

(** X18. With Redis up, [send_verification_code] draws a code, stores
    it for the address with the 300-second expiry, replacing whatever
    code the address had, and returns [True]; the codes of other
    addresses are untouched.  Afterwards every other code is refused for
    the address, and a refused attempt made while the key is alive does
    not use up the stored code: the key is left as it was, so that the
    number of wrong attempts is not limited. *)
Theorem send_verification_code_replaces_code email code (rest : list string) w :
  redis_up w = true -> rng w = code :: rest ->
  let issue := send_verification_code email w in
  let w1 := snd issue in
  fst issue = Returned true /\
  users w1 = users w /\
  redis w1 !! key_of email =
    Some (mkEntry code (clock w (ticks w))
            (clock w (S (ticks w)) + seconds 300)
            (clock w (S (S (ticks w))) + seconds 300)) /\
  (forall other, other <> email ->
     redis w1 !! key_of other = redis w !! key_of other) /\
  (forall w2 given, given <> code ->
     redis w2 !! key_of email = redis w1 !! key_of email ->
     fst (verify_code email given w2) = Returned false /\
     (redis_up w2 = true ->
      clock w2 (ticks w2) < clock w (S (S (ticks w))) + seconds 300 ->
      redis (snd (verify_code email given w2)) = redis w2)).
Proof.
  intros Hup Hrng. cbv zeta.
  rewrite (send_verification_code_run email code rest w Hup Hrng). simpl.
  split; [reflexivity |]. split; [reflexivity |].
  split; [apply lookup_insert_eq |]. split.
  - intros other Hne. apply lookup_insert_ne.
    intros Hkey. apply key_of_injective in Hkey. congruence.
  - intros w2 given Hne Hsame. rewrite lookup_insert_eq in Hsame.
    assert (Hcode : String.eqb code given = false)
      by (apply String.eqb_neq; congruence).
    unfold verify_code, try_except, bind, redis_get, utcnow, ret.
    destruct (redis_up w2); simpl; [| split; [reflexivity | discriminate]].
    rewrite Hsame. simpl.
    destruct (clock w2 (ticks w2) <?
              clock w (S (S (ticks w))) + seconds default_expires_in) eqn:Halive;
      simpl.
    + rewrite Hcode. simpl. split; [reflexivity |]. reflexivity.
    + split; [reflexivity |]. intros _ Hlt.
      apply Z.ltb_ge in Halive. unfold default_expires_in in Halive. lia.
Qed.

End IssuingCodes.

Section CodeEndpoint.

Context `{Security}.

Import EmailService.

(** X19. The endpoint [send_verification_code] refuses an address that
    is registered with 400 and stores nothing; for an unregistered
    address it answers 500, with Redis unchanged, when Redis is down,
    and otherwise stores the drawn code and returns. *)
Theorem send_verification_code_endpoint_outcomes (email' : string) (w : World) :
  (forall user, get_by_email (users w) email' = Some user ->
     send_verification_code_endpoint email' w = (Raised (HTTPException 400), w)) /\
  (forall code rest,
     get_by_email (users w) email' = None -> rng w = code :: rest ->
     redis_up w = false ->
     fst (send_verification_code_endpoint email' w) = Raised (HTTPException 500) /\
     redis (snd (send_verification_code_endpoint email' w)) = redis w) /\
  (forall code rest,
     get_by_email (users w) email' = None -> rng w = code :: rest ->
     redis_up w = true ->
     fst (send_verification_code_endpoint email' w) = Returned tt /\
     exists entry,
       redis (snd (send_verification_code_endpoint email' w)) !! key_of email' =
         Some entry /\
       entry_code entry = code /\
       entry_expires_at entry = clock w (S (ticks w)) + seconds 300).
Proof.
  unfold send_verification_code_endpoint. rewrite bind_db_query.
  split; [| split].
  - intros user Hfound. now rewrite Hfound.
  - intros code rest Hnone Hrng Hdown. rewrite Hnone. simpl.
    unfold send_verification_code, generate_verification_code, random_choices,
      store_verification_code, try_except, redis_setex, bind, utcnow, ret, raise.
    rewrite Hrng. simpl. rewrite Hdown. simpl. split; reflexivity.
  - intros code rest Hnone Hrng Hup. rewrite Hnone. simpl.
    rewrite (bind_returned _ _ _ _ _
               (send_verification_code_run email' code rest w Hup Hrng)).
    simpl. split; [reflexivity |].
    eexists. split; [apply lookup_insert_eq |]. split; reflexivity.
Qed.

End CodeEndpoint.

Section FurtherWitnesses.

Import EmailService.

Lemma fine_clock_monotone (us : list User) (r : gmap string VerificationEntry)
    (up : bool) (n : nat) (l : list string) :
  monotone_clock (mkWorld us r up Sample.fine_clock n l).
Proof. intros i j Hij. simpl. unfold Sample.fine_clock. lia. Qed.

(** The trial account [oauth_bob], read twice on a clock that advances
    by a microsecond per reading. *)
Lemma subscription_status_consistent_witness :
  monotone_clock Sample.seeded /\
  exists report,
    fst (get_subscription_status Sample.oauth_bob Sample.seeded) = Returned report /\
    SubscriptionStatus.is_trial report = true /\
    (SubscriptionStatus.is_trial_expired report = true ->
     SubscriptionStatus.is_subscription_active report = false).
Proof.
  split; [apply fine_clock_monotone |].
  destruct (subscription_status_consistent Sample.oauth_bob Sample.seeded
              (fine_clock_monotone _ _ _ _ _))
    as (report & w' & Hrun & _ & Htrial & _ & Hexclusive & _).
  exists report. rewrite Hrun. split; [reflexivity |].
  split; [exact Htrial | exact Hexclusive].
Defined.

(** A code is sent to [alice] on an empty Redis; a guess at the code is
    refused and leaves the stored code in place. *)
Lemma send_verification_code_replaces_code_witness :
  let w := Sample.fresh in
  let w1 := snd (send_verification_code "alice@x.com" w) in
  redis_up w = true /\
  rng w = "k3x9q2mz" :: tl Sample.draws /\
  fst (send_verification_code "alice@x.com" w) = Returned true /\
  fst (verify_code "alice@x.com" "000000" w1) = Returned false /\
  redis (snd (verify_code "alice@x.com" "000000" w1)) = redis w1.
Proof.
  cbv zeta.
  destruct (send_verification_code_replaces_code "alice@x.com" "k3x9q2mz"
              (tl Sample.draws) Sample.fresh eq_refl eq_refl)
    as (Hsent & _ & _ & _ & Hguess).
  split; [reflexivity |]. split; [reflexivity |]. split; [exact Hsent |].
  destruct (Hguess (snd (send_verification_code "alice@x.com" Sample.fresh))
              "000000") as (Hrefused & Hkept);
    [discriminate | reflexivity |].
  split; [exact Hrefused |].
  apply Hkept; [reflexivity | vm_compute; reflexivity].
Defined.

(** A password of three letters with diacritics, six bytes in UTF-8, is
    three characters long and refused. *)
Lemma set_password_only_once_witness :
  String.length "äöü" = 6%nat /\
  py_len "äöü" = 3%nat /\
  set_password (H := Sample.security) "äöü" Sample.auto_user Sample.seeded =
    (Raised (HTTPException 400), Sample.seeded).
Proof.
  destruct (set_password_only_once (H := Sample.security) "äöü"
              Sample.auto_user Sample.seeded) as (_ & Hshort & _).
  split; [reflexivity |]. split; [reflexivity |].
  apply Hshort. simpl. lia.
Defined.

End FurtherWitnesses.

(** ** Creating accounts *)

Section UserCreation.

Context `{Security} (settings : Settings).

Lemma integrity_ok_taken us (row taken : User) :
  In taken us ->
  username taken = username row \/ same_present (email taken) (email row) = true ->
  integrity_ok us row = false.
Proof.
  intros Hin Hclash. unfold integrity_ok.
  destruct (is_present (email row)); [simpl | reflexivity].
  apply not_true_is_false. intros Hall.
  rewrite forallb_forall in Hall. specialize (Hall taken Hin).
  apply andb_prop in Hall as [Hall _]. apply andb_prop in Hall as [Hname Haddr].
  destruct Hclash as [Hsame | Hsame].
  - rewrite Hsame, String.eqb_refl in Hname. discriminate.
  - rewrite Hsame in Haddr. discriminate.
Qed.

Lemma same_present_refl (a : string) : same_present (Some a) (Some a) = true.
Proof. simpl. apply String.eqb_refl. Qed.

Lemma find_app_later {A} (p : A -> bool) (l : list A) (x : A) :
  find p l = None -> find p (l ++ [x]) = if p x then Some x else None.
Proof.
  intros Hnone. induction l as [| a l IH]; simpl in *.
  - reflexivity.
  - destruct (p a); [discriminate | now apply IH].
Qed.

Lemma first_by_username_or_email_other us (row earlier : User)
    (identifier : string) :
  username row <> identifier ->
  first_by_username_or_email us identifier = Some earlier ->
  first_by_username_or_email (us ++ [row]) identifier = Some earlier.
Proof.
  intros Hother. unfold first_by_username_or_email, get_by_username, get_by_email.
  destruct (find (fun u => String.eqb (username u) identifier) us)
    as [named|] eqn:Hnamed.
  - intros [= <-]. now rewrite (find_app_some _ _ [row] _ Hnamed).
  - intros Haddr. rewrite (find_app_later _ _ row Hnamed).
    apply String.eqb_neq in Hother. rewrite Hother.
    exact (find_app_some _ _ [row] _ Haddr).
Qed.

(** X20. [create_user] on a table where the username and the address
    are unused stores one new row, which [get], [get_by_username] and
    [get_by_email] then return, and leaves the earlier rows in place.
    [authenticate] with the new username then answers by the hash
    [get_password_hash] produced: the query prefers the row with the
    username, so the new account takes the identifier over even from
    an earlier account that has it as its e-mail address.
    [authenticate] with the new address answers by that hash when no
    earlier row has the address as its username, and goes on answering
    for such a row when there is one.  For every other identifier
    [authenticate] answers as it did before the account existed. *)
Theorem create_user_round_trip (body : UserRegister.t) (w : World) :
  get_by_username (users w) (UserRegister.username body) = None ->
  get_by_email (users w) (UserRegister.email body) = None ->
  exists row w1,
    create_user settings (BodyUserRegister body) w = (Returned row, w1) /\
    users w1 = users w ++ [row] /\
    get (users w1) (id row) = Some row /\
    get_by_username (users w1) (UserRegister.username body) = Some row /\
    get_by_email (users w1) (UserRegister.email body) = Some row /\
    (forall password,
       authenticate (users w1) (UserRegister.username body) password =
         if verify_hash password (get_password_hash (UserRegister.password body))
         then Some row else None) /\
    (forall password,
       get_by_username (users w) (UserRegister.email body) = None ->
       authenticate (users w1) (UserRegister.email body) password =
         if verify_hash password (get_password_hash (UserRegister.password body))
         then Some row else None) /\
    (forall password earlier,
       get_by_username (users w) (UserRegister.email body) = Some earlier ->
       authenticate (users w1) (UserRegister.email body) password =
         authenticate (users w) (UserRegister.email body) password) /\
    (forall identifier password earlier,
       identifier <> UserRegister.username body ->
       first_by_username_or_email (users w) identifier = Some earlier ->
       authenticate (users w1) identifier password =
         authenticate (users w) identifier password).
Proof.
  intros Hname Haddr.
  destruct (create_user_stores settings body w Hname Haddr)
    as (row & Hrun & Hid & Husername & Hemail & Hhash & _).
  assert (Hby_name : get_by_username (users w ++ [row]) (UserRegister.username body)
                     = Some row).
  { apply find_app_none; [exact Hname |].
    rewrite Husername. apply String.eqb_refl. }
  assert (Hby_addr : get_by_email (users w ++ [row]) (UserRegister.email body)
                     = Some row).
  { apply find_app_none; [exact Haddr |].
    rewrite Hemail. simpl. apply String.eqb_refl. }
  exists row. eexists. split; [exact Hrun |]. simpl.
  split; [reflexivity |].
  split; [now apply get_inserted |].
  split; [exact Hby_name |]. split; [exact Hby_addr |].
  split; [| split; [| split]].
  - intros password. unfold authenticate, first_by_username_or_email.
    rewrite Hby_name, Hhash. simpl.
    now destruct (verify_hash password _).
  - intros password Hother.
    unfold authenticate, first_by_username_or_email.
    unfold get_by_username in *.
    rewrite (find_app_later _ _ row Hother).
    destruct (String.eqb (username row) (UserRegister.email body)).
    + rewrite Hhash. simpl. now destruct (verify_hash password _).
    + unfold get_by_email in Hby_addr. unfold get_by_email.
      rewrite Hby_addr, Hhash. simpl.
      now destruct (verify_hash password _).
  - intros password earlier Hearlier.
    unfold authenticate, first_by_username_or_email.
    unfold get_by_username in *.
    now rewrite (find_app_some _ _ [row] _ Hearlier), Hearlier.
  - intros identifier password earlier Hother Hearlier. unfold authenticate.
    rewrite (first_by_username_or_email_other (users w) row earlier identifier);
      [now rewrite Hearlier | congruence | exact Hearlier].
Qed.

(** X21. [create_user] with a username or an address that a row of
    the table already has raises [IntegrityError] at the commit: no row
    is added and Redis is not touched. *)
Theorem create_user_conflict_raises (body : UserRegister.t) (w : World)
    (taken : User) :
  In taken (users w) ->
  username taken = UserRegister.username body \/
  email taken = Some (UserRegister.email body) ->
  fst (create_user settings (BodyUserRegister body) w) = Raised IntegrityError /\
  users (snd (create_user settings (BodyUserRegister body) w)) = users w /\
  redis (snd (create_user settings (BodyUserRegister body) w)) = redis w.
Proof.
  intros Hin Hclash.
  unfold create_user, db_insert, bind, lift, utcnow. simpl.
  match goal with
  | |- context [integrity_ok ?us ?r] =>
      rewrite (integrity_ok_taken us r taken Hin)
  end.
  - simpl. repeat split.
  - simpl. destruct Hclash as [Hsame | Hsame]; [now left | right].
    rewrite Hsame. apply same_present_refl.
Qed.

End UserCreation.

Section UserCreationWitnesses.

(** [alice] is added to the seeded table and signs in with her
    password. *)
Lemma create_user_round_trip_witness :
  get_by_username (users Sample.seeded) "alice" = None /\
  get_by_email (users Sample.seeded) "alice@x.com" = None /\
  exists row,
    fst (create_user (H := Sample.security) default_settings
           (BodyUserRegister Sample.alice) Sample.seeded) = Returned row /\
    authenticate (H := Sample.security)
      (users (snd (create_user (H := Sample.security) default_settings
                     (BodyUserRegister Sample.alice) Sample.seeded)))
      "alice" "pw123456" = Some row.
Proof.
  split; [reflexivity |]. split; [reflexivity |].
  destruct (create_user_round_trip (H := Sample.security) default_settings
              Sample.alice Sample.seeded eq_refl eq_refl)
    as (row & w1 & Hrun & _ & _ & _ & _ & Hauth & _).
  exists row. rewrite Hrun. split; [reflexivity |].
  exact (Hauth "pw123456").
Defined.

(** The username [carol] is taken in the seeded table. *)
Lemma create_user_conflict_raises_witness :
  let body := UserRegister.mk "carol" "carol2@x.com" "pw123456" "123456" in
  In Sample.lifetime_member (users Sample.seeded) /\
  username Sample.lifetime_member = UserRegister.username body /\
  fst (create_user (H := Sample.security) default_settings
         (BodyUserRegister body) Sample.seeded) = Raised IntegrityError /\
  users (snd (create_user (H := Sample.security) default_settings
                (BodyUserRegister body) Sample.seeded)) = users Sample.seeded.
Proof.
  cbv zeta.
  assert (Hin : In Sample.lifetime_member (users Sample.seeded))
    by (left; reflexivity).
  split; [exact Hin |]. split; [reflexivity |].
  destruct (create_user_conflict_raises (H := Sample.security) default_settings
              (UserRegister.mk "carol" "carol2@x.com" "pw123456" "123456")
              Sample.seeded Sample.lifetime_member Hin (or_introl eq_refl))
    as (Hraised & Hsame & _).
  split; [exact Hraised | exact Hsame].
Defined.

End UserCreationWitnesses.

(** ** Registration requests that are refused *)

Section RefusedRegistration.

Context `{Security} (settings : Settings).

Import EmailService.

(** X22. [register_user] checks the verification code before it looks
    for the address and the username.  A request with the right code
    whose address or username is taken is answered 400 with the table
    unchanged, but the code is used up: the key is gone from Redis, and
    every later registration for the address is answered 400 as long as
    no new code is stored, also one that picks a free username. *)
Theorem register_user_refusal_spends_code (user_in : UserRegister.t)
    (w w1 : World) (taken : User) :
  verify_code (UserRegister.email user_in)
    (UserRegister.verification_code user_in) w = (Returned true, w1) ->
  get_by_email (users w) (UserRegister.email user_in) = Some taken \/
  get_by_username (users w) (UserRegister.username user_in) = Some taken ->
  register_user settings user_in w = (Raised (HTTPException 400), w1) /\
  users w1 = users w /\
  redis w1 !! key_of (UserRegister.email user_in) = None /\
  forall (retry : UserRegister.t) (w2 : World),
    UserRegister.email retry = UserRegister.email user_in ->
    redis w2 !! key_of (UserRegister.email user_in) = None ->
    fst (register_user settings retry w2) = Raised (HTTPException 400).
Proof.
  intros Hverify Htaken.
  destruct (verify_code_true_state _ _ _ _ Hverify) as (Husers & _ & _).
  destruct (verify_code_true_inv _ _ _ _ Hverify) as (_ & Hredis).
  split; [| split; [exact Husers | split]].
  - unfold register_user.
    rewrite (bind_returned _ _ _ _ _ Hverify). simpl.
    rewrite bind_db_query, Husers.
    destruct Htaken as [Haddr | Hname].
    + now rewrite Haddr.
    + destruct (get_by_email (users w) (UserRegister.email user_in));
        simpl; [reflexivity |].
      rewrite bind_db_query, Husers. now rewrite Hname.
  - rewrite Hredis. apply lookup_delete_eq.
  - intros retry w2 Hsame Hgone. unfold register_user. rewrite Hsame.
    pose proof (verify_code_absent w2 _ (UserRegister.verification_code retry)
                  Hgone) as Hrefused.
    destruct (verify_code_returns w2 (UserRegister.email user_in)
                (UserRegister.verification_code retry)) as (b & w3 & Hrun).
    rewrite Hrun in Hrefused. simpl in Hrefused. injection Hrefused as ->.
    now rewrite (bind_returned _ _ _ _ _ Hrun).
Qed.

End RefusedRegistration.

(** ** Generated usernames *)

Section GeneratedUsernames.

Lemma first_free_username_drawn us (draws rest : list string) (name : string) :
  first_free_username us draws = Some (name, rest) ->
  exists draw, In draw draws /\ name = ("user_" ++ draw)%string.
Proof.
  induction draws as [| draw draws IH]; simpl; [discriminate |].
  destruct (get_by_username us ("user_" ++ draw)%string).
  - intros Hrest. destruct (IH Hrest) as (d & Hd & Hname).
    exists d. split; [now right | exact Hname].
  - intros [= <- <-]. exists draw. split; [now left | reflexivity].
Qed.

(** X23. [generate_unique_username] never touches the table and never
    raises.  The name it returns is "user_" followed by one of the
    draws, and no row of the table carries it; it returns a name as soon
    as one draw gives a name that is free. *)
Theorem generate_unique_username_is_free (w : World) :
  users (snd (generate_unique_username w)) = users w /\
  (forall name,
     fst (generate_unique_username w) = Returned name ->
     get_by_username (users w) name = None /\
     exists draw, In draw (rng w) /\ name = ("user_" ++ draw)%string) /\
  (forall draw,
     In draw (rng w) ->
     get_by_username (users w) ("user_" ++ draw)%string = None ->
     exists name, fst (generate_unique_username w) = Returned name) /\
  (forall e, fst (generate_unique_username w) = Raised e -> False).
Proof.
  unfold generate_unique_username.
  destruct (first_free_username (users w) (rng w)) as [[name rest]|] eqn:Hloop;
    simpl.
  - split; [reflexivity |]. split; [| split].
    + intros name' [= <-]. split.
      * exact (first_free_username_free _ _ _ _ Hloop).
      * exact (first_free_username_drawn _ _ _ _ Hloop).
    + intros draw _ _. now exists name.
    + discriminate.
  - split; [reflexivity |]. split; [| split].
    + discriminate.
    + intros draw Hin Hfree.
      destruct (first_free_username_finds _ _ _ Hin Hfree) as (n & r & Hsome).
      congruence.
    + discriminate.
Qed.

End GeneratedUsernames.

(** ** Trial grants *)

Section TrialGrants.

Context `{Security} (settings : Settings).

Lemma get_id us (user_id : Z) (user : User) :
  get us user_id = Some user -> id user = user_id.
Proof.
  intros Hget. apply find_some in Hget as [_ Hid]. now apply Z.eqb_eq.
Qed.

(** X24. [set_trial_period] and [update_last_login] on an id that has
    no row return [None] and write nothing.  [set_trial_period] on an
    existing account does not look at its tier: whatever the account
    was (also paid or lifetime), it becomes a trial account with the
    configured trial follow limit, so that its access now ends with the
    trial; the subscription dates and the follow count stay, and no
    other row changes. *)
Theorem set_trial_period_overrides_tier (user_id days' : Z) (w : World) :
  (get (users w) user_id = None ->
   set_trial_period settings user_id days' w = (Returned None, w) /\
   update_last_login user_id w = (Returned None, w)) /\
  (forall user,
     get (users w) user_id = Some user ->
     exists granted w1,
       set_trial_period settings user_id days' w = (Returned (Some granted), w1) /\
       id granted = user_id /\
       user_type granted = TRIAL /\
       max_follows granted = TRIAL_MAX_FOLLOWS settings /\
       trial_start_date granted = Some (clock w (ticks w)) /\
       trial_end_date granted = Some (clock w (1 + ticks w) + days days') /\
       subscription_start_date granted = subscription_start_date user /\
       subscription_end_date granted = subscription_end_date user /\
       current_follows granted = current_follows user /\
       (forall now,
          is_subscription_active granted now =
            negb (now >? clock w (1 + ticks w) + days days')) /\
       (distinct_ids (users w) -> get (users w1) user_id = Some granted) /\
       length (users w1) = length (users w) /\
       (forall i row,
          users w !! i = Some row -> id row <> user_id ->
          users w1 !! i = Some row)).
Proof.
  split.
  - intros Hnone.
    unfold set_trial_period, update_last_login.
    rewrite !bind_db_query, Hnone. split; reflexivity.
  - intros user Hget.
    destruct (set_trial_period_grants settings user_id days' user w Hget)
      as (granted & Hrun & ->).
    pose proof (get_id _ _ _ Hget) as Hid.
    eexists. eexists. split; [exact Hrun |]. simpl.
    split; [exact Hid |].
    do 7 (split; [reflexivity |]).
    split; [reflexivity |].
    split; [| split].
    + intros Hdistinct. unfold get in *.
      eapply find_update_row_found; [exact Hdistinct | exact Hget | reflexivity |].
      simpl. now apply Z.eqb_eq.
    + unfold update_row. now rewrite length_map.
    + intros i row Hi Hne. eapply update_row_other; [exact Hi |].
      simpl. congruence.
Qed.

End TrialGrants.

(** ** OAuth sign-in *)

Section OAuthSignIn.

Context `{Security} (settings : Settings).

Lemma token_lines_raise (user : User) (is_new_user : bool) (w : World) :
  (let* access_minutes :=
     lift (settings_int settings "ACCESS_TOKEN_EXPIRE_MINUTES") in
   let access_token_expires := minutes access_minutes in
   let* refresh_minutes :=
     lift (settings_int settings "REFRESH_TOKEN_EXPIRE_MINUTES") in
   let refresh_token_expires := minutes refresh_minutes in
   ret (OAuthLoginResponse.mk
          (create_access_token (id user) access_token_expires)
          (create_refresh_token (id user) refresh_token_expires)
          (td_seconds access_token_expires)
          user
          is_new_user))%py w = (Raised AttributeError, w).
Proof. reflexivity. Qed.

(** X25. [google_oauth_login] wraps its whole body in
    [except Exception]: the 400 raised for a token the provider rejects
    is caught and answered as 500, with nothing written.  For a
    resolved identity the token lines raise, so that the answer is 500
    as well, while what the resolution wrote (last login, linked
    identity or new account) stays committed.  The endpoint answers 500
    or, when the draws for a username run out, does not answer. *)
Theorem google_oauth_login_answers_500 (w : World) :
  google_oauth_login settings None w = (Raised (HTTPException 500), w) /\
  (forall info user is_new_user w1,
     oauth_resolve_user settings info w = (Returned (user, is_new_user), w1) ->
     google_oauth_login settings (Some info) w = (Raised (HTTPException 500), w1)) /\
  (forall user_info,
     fst (google_oauth_login settings user_info w) = Raised (HTTPException 500) \/
     fst (google_oauth_login settings user_info w) = Exhausted).
Proof.
  assert (Hresolved : forall info user is_new_user w1,
     oauth_resolve_user settings info w = (Returned (user, is_new_user), w1) ->
     google_oauth_login settings (Some info) w = (Raised (HTTPException 500), w1)).
  { intros info user is_new_user w1 Hrun.
    unfold google_oauth_login, try_except.
    rewrite (bind_returned _ _ _ _ _ Hrun).
    cbv beta zeta. now rewrite token_lines_raise. }
  split; [reflexivity |]. split; [exact Hresolved |].
  intros [info|]; [| now left].
  destruct (oauth_resolve_user settings info w) as [[[user is_new_user]| e |] w1]
    eqn:Hrun.
  - left. now rewrite (Hresolved info user is_new_user w1 Hrun).
  - left. unfold google_oauth_login, try_except.
    now rewrite (bind_raised _ _ _ _ _ Hrun).
  - right. unfold google_oauth_login, try_except, bind. now rewrite Hrun.
Qed.

(** X26. An account holds one OAuth identity.  When a sign-in with a
    new identity finds, by its address, an account that already signed
    in with another identity, [link_oauth_account] overwrites the
    earlier one: the new identity now resolves to the account, and the
    earlier identity, which no other row carries, resolves to no account
    any more. *)
Theorem oauth_link_replaces_identity (info : OAuthInfo.t) (w : World)
    (account : User) (earlier_provider earlier_id : string) :
  get_by_oauth_provider (users w) (OAuthInfo.provider info)
    (OAuthInfo.provider_id info) = None ->
  get_by_email (users w) (OAuthInfo.email info) = Some account ->
  get_by_oauth_provider (users w) earlier_provider earlier_id = Some account ->
  (forall v, In v (users w) ->
     has_identity earlier_provider earlier_id v = true -> id v = id account) ->
  exists linked w1,
    oauth_resolve_user settings info w = (Returned (linked, false), w1) /\
    id linked = id account /\
    get_by_oauth_provider (users w1) (OAuthInfo.provider info)
      (OAuthInfo.provider_id info) = Some linked /\
    get_by_oauth_provider (users w1) earlier_provider earlier_id = None.
Proof.
  intros Hnew Haddr Hearlier Honly.
  unfold oauth_resolve_user.
  rewrite bind_db_query, Hnew. rewrite bind_db_query, Haddr.
  unfold link_oauth_account, db_update, bind, utcnow, ret. simpl.
  eexists. eexists. split; [reflexivity |]. simpl.
  split; [reflexivity |].
  assert (Hin : In account (users w)).
  { unfold get_by_email in Haddr. now apply find_some in Haddr as [Hin _]. }
  split.
  - unfold get_by_oauth_provider.
    eapply find_update_row_linked; [exact Hnew | exact Hin | reflexivity |].
    apply has_identity_refl; reflexivity.
  - unfold get_by_oauth_provider. apply find_none_iff.
    intros v Hv. unfold update_row in Hv. apply in_map_iff in Hv.
    destruct Hv as (row & Hrow & Hrow_in). simpl in Hrow.
    destruct (id row =? id account) eqn:Hid.
    + subst v. unfold has_identity. simpl.
      destruct (String.eqb (OAuthInfo.provider info) earlier_provider) eqn:Hp;
        [| reflexivity].
      destruct (String.eqb (OAuthInfo.provider_id info) earlier_id) eqn:Hi;
        [| reflexivity].
      apply String.eqb_eq in Hp. apply String.eqb_eq in Hi.
      unfold get_by_oauth_provider in Hnew, Hearlier.
      rewrite Hp, Hi in Hnew. congruence.
    + subst v. destruct (has_identity earlier_provider earlier_id row) eqn:Hhas;
        [| reflexivity].
      apply Z.eqb_neq in Hid. now specialize (Honly row Hrow_in Hhas).
Qed.

End OAuthSignIn.

Section RefusalWitnesses.

Import EmailService.

(** A code was issued to alice@x.com; the request names [carol], a
    username of the seeded table. *)
Lemma register_user_refusal_spends_code_witness :
  let body := UserRegister.mk "carol" "alice@x.com" "pw123456" "123456" in
  let w := Sample.code_issued Sample.seeded in
  fst (verify_code "alice@x.com" "123456" w) = Returned true /\
  get_by_username (users w) "carol" = Some Sample.lifetime_member /\
  fst (register_user (H := Sample.security) default_settings body w) =
    Raised (HTTPException 400) /\
  redis (snd (register_user (H := Sample.security) default_settings body w))
    !! key_of "alice@x.com" = None.
Proof.
  cbv zeta.
  destruct (register_user_refusal_spends_code (H := Sample.security)
              default_settings
              (UserRegister.mk "carol" "alice@x.com" "pw123456" "123456")
              (Sample.code_issued Sample.seeded)
              (snd (verify_code "alice@x.com" "123456"
                      (Sample.code_issued Sample.seeded)))
              Sample.lifetime_member eq_refl (or_intror eq_refl))
    as (Hrun & _ & Hgone & _).
  split; [reflexivity |]. split; [reflexivity |].
  rewrite Hrun. split; [reflexivity | exact Hgone].
Defined.

(** [oauth_bob] signed in with Google; a sign-in with Apple under the
    same address takes the account over. *)
Lemma oauth_link_replaces_identity_witness :
  let info := OAuthInfo.mk "apple" "000123" "bob@x.com" true in
  get_by_oauth_provider (users Sample.seeded) "apple" "000123" = None /\
  get_by_email (users Sample.seeded) "bob@x.com" = Some Sample.oauth_bob /\
  get_by_oauth_provider (users Sample.seeded) "google" "557301" =
    Some Sample.oauth_bob /\
  exists linked w1,
    oauth_resolve_user default_settings info Sample.seeded =
      (Returned (linked, false), w1) /\
    get_by_oauth_provider (users w1) "apple" "000123" = Some linked /\
    get_by_oauth_provider (users w1) "google" "557301" = None.
Proof.
  cbv zeta.
  split; [reflexivity |]. split; [reflexivity |]. split; [reflexivity |].
  destruct (oauth_link_replaces_identity default_settings
              (OAuthInfo.mk "apple" "000123" "bob@x.com" true)
              Sample.seeded Sample.oauth_bob "google" "557301"
              eq_refl eq_refl eq_refl)
    as (linked & w1 & Hrun & _ & Hnew & Hearlier).
  - intros v Hv Hhas. simpl in Hv.
    destruct Hv as [<- | [<- | [<- | []]]];
      [discriminate Hhas | reflexivity | discriminate Hhas].
  - exists linked, w1. split; [exact Hrun |]. split; [exact Hnew | exact Hearlier].
Defined.

End RefusalWitnesses.

(** ** Notification statistics *)

Section Statistics.

Import Notification InboxStats.









End Statistics.
